(** * Serial command framing: a shallow embedding of
      [tools/serial_client/serial_client.py]

    The Python module builds length-prefixed, CRC-protected command frames
    from loosely typed caller inputs.  Its pure part is embedded here:
    [crc16_modbus], [parse_u8], [data_to_2_bytes] and
    [CommandSender.build_frame], together with the builtins they call
    ([str.strip], [str.lower], [str.startswith], [int], [bytes],
    [bytes.decode]).  Opening the port, sleeping and writing to it are not
    modelled. *)

From Stdlib Require Import ZArith List String Ascii Bool Lia.
From Stdlib.Strings Require Import Byte.
Import ListNotations.

Local Open Scope Z_scope.

(** ** Results and exceptions *)

(** Why a [ValueError] was raised: the message of the [raise] statement in
    the source, or the builtin that raised it. *)
Inductive value_error : Type :=
| OutOfRangeU8      (* "Value out of range for u8 (0..255)" *)
| OutOfRangeData    (* "DATA int must be in 0..255" *)
| FrameLenOutOfRange (* "Frame LEN out of range (2..255). Payload too large?" *)
| InvalidLiteral    (* int(): invalid literal for int() with base b *)
| TooManyDigits     (* int(): Exceeds the limit (4300 digits) *)
| BytesOutOfRange   (* bytes(): bytes must be in range(0, 256) *)
| Undecodable.      (* bytes.decode(): UnicodeDecodeError, a ValueError *)

Inductive type_error : Type :=
| UnsupportedU8     (* "Unsupported type for u8" *)
| UnsupportedData.  (* "Unsupported DATA type" *)

Inductive exn : Type :=
| ValueError (why : value_error)
| TypeError (why : type_error).

Inductive result (E A : Type) : Type :=
| Ok (a : A)
| Raise (e : E).

Arguments Ok {E A} a.
Arguments Raise {E A} e.

Definition bind {E A B : Type} (m : result E A) (k : A -> result E B)
  : result E B :=
  match m with
  | Ok a => k a
  | Raise e => Raise e
  end.

Notation "x <- m ;; k" := (bind m (fun x => k))
  (at level 61, m at next level, right associativity).

(** A Python call either returns or raises. *)
Definition py (A : Type) : Type := result exn A.

(** The error taxonomy of the specification. *)
Inductive spec_error : Type :=
| SpecTypeError
| FormatError (msg : string)
| RangeError
| ChecksumError.

Definition spec_class (e : exn) : spec_error :=
  match e with
  | TypeError _ => SpecTypeError
  | ValueError OutOfRangeU8 => RangeError
  | ValueError OutOfRangeData => RangeError
  | ValueError FrameLenOutOfRange => RangeError
  | ValueError BytesOutOfRange => RangeError
  | ValueError InvalidLiteral => FormatError "not a number"
  | ValueError TooManyDigits => FormatError "not a number"
  | ValueError Undecodable => FormatError "not a number"
  end.

(** ** Bytes *)

Definition bytes : Type := list byte.

Definition Z_of_byte (b : byte) : Z := Z.of_N (Byte.to_N b).

(** The byte with value [z mod 256]. *)
Definition to_byte (z : Z) : byte :=
  match Byte.of_N (Z.to_N (z mod 256)) with
  | Some b => b
  | None => x00
  end.

Definition is_u8 (z : Z) : bool := (0 <=? z) && (z <=? 255).

(** [bytes([z1, ..., zn])]: raises [ValueError] unless every element is in
    [range(256)]. *)
Fixpoint py_bytes (l : list Z) : py bytes :=
  match l with
  | [] => Ok []
  | z :: l' =>
      if is_u8 z then (bs <- py_bytes l' ;; Ok (to_byte z :: bs))
      else Raise (ValueError BytesOutOfRange)
  end.

(** ** [crc16_modbus] *)

(** One pass of the inner loop:
    [lsb = crc & 0x0001; crc >>= 1; if lsb: crc ^= 0xA001]. *)
Definition crc_bit (crc : Z) : Z :=
  let lsb := Z.land crc 0x0001 in
  let crc := Z.shiftr crc 1 in
  if lsb =? 0 then crc else Z.lxor crc 0xA001.

(** One pass of the outer loop: [crc ^= b] and eight inner passes. *)
Definition crc_byte (crc : Z) (b : byte) : Z :=
  Nat.iter 8 crc_bit (Z.lxor crc (Z_of_byte b)).

Definition crc16_modbus (data : bytes) : Z :=
  let crc := fold_left crc_byte data 0xFFFF in
  Z.land crc 0xFFFF.

(** The checksum as the specification words it: the register starts at
    [0xFFFF]; each byte is XORed into the register, followed by eight
    iterations of "if the low bit is set, shift right and XOR with [0xA001],
    else shift right only"; the result is masked to 16 bits. *)
Module CRC16Modbus.

Definition shift_step (reg : Z) : Z :=
  if Z.testbit reg 0 then Z.lxor (reg / 2) 0xA001 else reg / 2.

Fixpoint shift_steps (n : nat) (reg : Z) : Z :=
  match n with
  | O => reg
  | S k => shift_steps k (shift_step reg)
  end.

Fixpoint run (reg : Z) (data : bytes) : Z :=
  match data with
  | [] => reg
  | b :: rest => run (shift_steps 8 (Z.lxor reg (Z_of_byte b))) rest
  end.

Definition checksum (data : bytes) : Z := run 0xFFFF data mod 2 ^ 16.

End CRC16Modbus.

(** ** Text

    A [string] stands for the Python [str] with the same code points, so
    the text model covers U+0000 to U+00FF.  On that range the builtins
    below agree with the interpreter's. *)

Definition code (c : ascii) : Z := Z.of_N (N_of_ascii c).

Definition between (lo hi n : Z) : bool := (lo <=? n) && (n <=? hi).

(** [str.isspace] on one character. *)
Definition isspace (c : ascii) : bool :=
  let n := code c in
  between 9 13 n || between 28 32 n || (n =? 133) || (n =? 160).

Fixpoint lstrip (s : string) : string :=
  match s with
  | EmptyString => EmptyString
  | String c s' => if isspace c then lstrip s' else s
  end.

Fixpoint rstrip (s : string) : string :=
  match s with
  | EmptyString => EmptyString
  | String c s' =>
      match rstrip s' with
      | EmptyString => if isspace c then EmptyString else String c EmptyString
      | r => String c r
      end
  end.

(** [s.strip()] *)
Definition strip (s : string) : string := rstrip (lstrip s).

Definition lower_char (c : ascii) : ascii :=
  let n := code c in
  if between 65 90 n || (between 192 222 n && negb (n =? 215))
  then ascii_of_N (Z.to_N (n + 32))
  else c.

(** [s.lower()] *)
Fixpoint lower (s : string) : string :=
  match s with
  | EmptyString => EmptyString
  | String c s' => String (lower_char c) (lower s')
  end.

(** [s.startswith(p)] *)
Definition startswith (p s : string) : bool := String.prefix p s.

(** [c in t] for a one-character [c]. *)
Fixpoint char_in (c : ascii) (t : string) : bool :=
  match t with
  | EmptyString => false
  | String d t' => Ascii.eqb c d || char_in c t'
  end.

(** [all(p(c) for c in s)] *)
Fixpoint all_chars (p : ascii -> bool) (s : string) : bool :=
  match s with
  | EmptyString => true
  | String c s' => p c && all_chars p s'
  end.

Definition is_empty (s : string) : bool :=
  match s with
  | EmptyString => true
  | String _ _ => false
  end.

(** *** [int(s, base)]

    The interpreter's conversion of text to an integer, for the two bases
    the program uses: surrounding whitespace is skipped, then an optional
    sign, then (base 16 only) an optional [0x]/[0X] prefix that may be
    followed by one underscore, then digits that single underscores may
    separate.  Anything else is an invalid literal.  In a base that is no
    power of two, a numeral of more digits than the interpreter's limit,
    4300 unless reconfigured, is refused as well. *)

(** Characters that [int] skips around the numeral. *)
Definition int_space (c : ascii) : bool :=
  let n := code c in
  between 9 13 n || (n =? 32) || (n =? 133) || (n =? 160).

(** The digit table of [int]: 37 marks a character that is no digit. *)
Definition digit_value (c : ascii) : Z :=
  let n := code c in
  if between 48 57 n then n - 48
  else if between 97 122 n then n - 97 + 10
  else if between 65 90 n then n - 65 + 10
  else 37.

Fixpoint skip_spaces (s : string) : string :=
  match s with
  | EmptyString => EmptyString
  | String c s' => if int_space c then skip_spaces s' else s
  end.

Definition is_underscore (c : ascii) : bool := Ascii.eqb c "_".

(** Scans digits and underscores; [prev_us] tells whether the previous
    character was an underscore.  Returns the value read and the text that
    is left, or [None] on a doubled or trailing underscore. *)
Fixpoint scan_digits (base : Z) (s : string) (acc : Z) (prev_us : bool)
  : option (Z * string) :=
  match s with
  | EmptyString => if prev_us then None else Some (acc, EmptyString)
  | String c s' =>
      if is_underscore c then
        if prev_us then None else scan_digits base s' acc true
      else if digit_value c <? base then
        scan_digits base s' (acc * base + digit_value c) false
      else if prev_us then None else Some (acc, s)
  end.

Definition take_sign (s : string) : bool * string :=
  match s with
  | String c r =>
      if Ascii.eqb c "+" then (false, r)
      else if Ascii.eqb c "-" then (true, r)
      else (false, s)
  | EmptyString => (false, s)
  end.

Definition drop_underscore (s : string) : string :=
  match s with
  | String c r => if is_underscore c then r else s
  | EmptyString => s
  end.

Definition take_hex_prefix (s : string) : string :=
  match s with
  | String c0 (String c1 r) =>
      if Ascii.eqb c0 "0" && (Ascii.eqb c1 "x" || Ascii.eqb c1 "X")
      then drop_underscore r
      else s
  | _ => s
  end.

Definition starts_with_underscore (s : string) : bool :=
  match s with
  | String c _ => is_underscore c
  | EmptyString => false
  end.

(** The digits among the characters that [scan_digits] passes over:
    underscores are skipped and do not count. *)
Fixpoint count_digits (base : Z) (s : string) : Z :=
  match s with
  | EmptyString => 0
  | String c s' =>
      if is_underscore c then count_digits base s'
      else if digit_value c <? base then 1 + count_digits base s'
      else 0
  end.

(** [sys.get_int_max_str_digits()], at its default. *)
Definition max_str_digits : Z := 4300.

(** The bases whose conversion is linear and has no digit limit. *)
Definition is_binary_base (base : Z) : bool :=
  existsb (Z.eqb base) [2; 4; 8; 16; 32].

Definition py_int (base : Z) (s : string) : py Z :=
  let s := skip_spaces s in
  let '(negative, s) := take_sign s in
  let s := if base =? 16 then take_hex_prefix s else s in
  if starts_with_underscore s then Raise (ValueError InvalidLiteral)
  else
    match scan_digits base s 0 false with
    | None => Raise (ValueError InvalidLiteral)
    | Some (v, rest) =>
        if negb (is_binary_base base)
           && (max_str_digits <? count_digits base s)
        then Raise (ValueError TooManyDigits)
        else if (String.length rest =? String.length s)%nat then
          Raise (ValueError InvalidLiteral)
        else if is_empty (skip_spaces rest) then
          Ok (if negative then - v else v)
        else Raise (ValueError InvalidLiteral)
    end.

(** The value of a plain numeral: its digits read from the left in
    [base], starting from [acc]. *)
Fixpoint numeral (base : Z) (acc : Z) (s : string) : Z :=
  match s with
  | EmptyString => acc
  | String c s' => numeral base (acc * base + digit_value c) s'
  end.

(** Every character is a digit of [base]. *)
Definition all_digits (base : Z) (s : string) : bool :=
  all_chars (fun c => digit_value c <? base) s.

(** [b.decode(errors="strict")]: strict UTF-8.  Bytes below [0x80] are the
    characters themselves; the two-byte forms led by [0xC2] and [0xC3]
    give U+0080 to U+00FF.  Every malformed sequence raises
    [UnicodeDecodeError]; well-formed sequences for code points above
    U+00FF lie outside the text model and are reported the same way. *)
Fixpoint decode (b : bytes) : py string :=
  match b with
  | [] => Ok EmptyString
  | b0 :: rest =>
      let n := Z_of_byte b0 in
      if n <? 128 then
        s <- decode rest ;; Ok (String (ascii_of_byte b0) s)
      else
        match rest with
        | b1 :: rest' =>
            let m := Z_of_byte b1 in
            if between 194 195 n && between 128 191 m then
              s <- decode rest' ;;
              Ok (String (ascii_of_N (Z.to_N ((n - 192) * 64 + (m - 128)))) s)
            else Raise (ValueError Undecodable)
        | [] => Raise (ValueError Undecodable)
        end
  end.

(** [hex(v)] *)
Definition hex_digit (d : Z) : ascii :=
  match String.get (Z.to_nat d) "0123456789abcdef" with
  | Some c => c
  | None => "0"%char
  end.

Fixpoint hex_digits (fuel : nat) (v : Z) (acc : string) : string :=
  match fuel with
  | O => acc
  | S k =>
      let acc' := String (hex_digit (v mod 16)) acc in
      if v / 16 =? 0 then acc' else hex_digits k (v / 16) acc'
  end.

Definition py_hex (v : Z) : string :=
  let digits := hex_digits (S (Z.to_nat (Z.log2 (Z.abs v)))) (Z.abs v) "" in
  if v <? 0 then ("-0x" ++ digits)%string else ("0x" ++ digits)%string.

(** ** Values handed to the coercions *)

(** The argument shapes the program distinguishes with [isinstance].
    ([bool] is a subclass of [int] and is covered by [PyInt].) *)
Inductive pyval : Type :=
| PyInt (z : Z)
| PyBytes (b : bytes)
| PyByteArray (b : bytes)
| PyStr (s : string)
| PyNone
| PyOther.   (* any other object: a float, a list, ... *)

(** ** [parse_u8] *)

Definition hex_alphabet : string := "0123456789abcdef".

(** [all(c in "0123456789abcdef" for c in s)] *)
Definition all_hex (s : string) : bool :=
  all_chars (fun c => char_in c hex_alphabet) s.

(** The check both integer paths end with:
    [if not (0 <= v <= 255): raise ValueError(...)], then [return v]. *)
Definition range_u8 (v : Z) : py Z :=
  if negb (is_u8 v) then Raise (ValueError OutOfRangeU8) else Ok v.

(** The [str] branch of [parse_u8]. *)
Definition parse_u8_str (x : string) : py Z :=
  let s := lower (strip x) in
  v <- (if startswith "0x" s then py_int 16 s
        else if all_hex s then py_int 16 s
        else py_int 10 s) ;;
  range_u8 v.

Definition parse_u8 (x : pyval) : py Z :=
  match x with
  | PyInt z => range_u8 z
  | PyBytes b =>
      match b with
      | [b0] => Ok (Z_of_byte b0)
      | _ => s <- decode b ;; parse_u8_str (strip s)
      end
  | PyStr s => parse_u8_str s
  | PyByteArray _ | PyNone | PyOther => Raise (TypeError UnsupportedU8)
  end.

(** ** [data_to_2_bytes] *)

(** The [bytes]/[bytearray] branch, on [bts = bytes(data)]. *)
Definition data_of_bytes (bts : bytes) : py bytes :=
  match bts with
  | [] => Ok []
  | [b0] => py_bytes [0x00; Z_of_byte b0]
  | [_; _] => Ok bts
  | _ => Ok bts
  end.

(** The [int] branch. *)
Definition data_of_int (data : Z) : py bytes :=
  if data =? 0 then py_bytes [0x00; 0x00]
  else if negb (is_u8 data) then Raise (ValueError OutOfRangeData)
  else py_bytes [0x00; data].

(** The [str] branch. *)
Definition data_of_str (data : string) : py bytes :=
  let data := strip data in
  if is_empty data then Ok []
  else
    v <- (if startswith "0x" (lower data) then py_int 16 data
          else py_int 10 data) ;;
    data_of_int v.

Definition data_to_2_bytes (data : pyval) : py bytes :=
  match data with
  | PyNone => Ok []
  | PyBytes b | PyByteArray b => data_of_bytes b
  | PyStr s => data_of_str s
  | PyInt z => data_of_int z
  | PyOther => Raise (TypeError UnsupportedData)
  end.

(** ** [CommandSender] *)

(** The sender's state that framing reads: its STX byte.  (The serial port
    it also holds is not modelled.) *)
Record CommandSender : Type := { stx : Z }.

(** [CommandSender.__init__]: [self.stx = stx & 0xFF]. *)
Definition new_sender (stx_arg : Z) : CommandSender :=
  {| stx := Z.land stx_arg 0xFF |}.

Definition default_sender : CommandSender := new_sender 0xA5.

Definition build_frame (self : CommandSender) (addr cmd data : pyval)
  : py bytes :=
  addr_u8 <- parse_u8 addr ;;
  cmd_u8 <- parse_u8 cmd ;;
  payload <- data_to_2_bytes data ;;
  let length := 2 + Z.of_nat (List.length payload) in
  if negb ((2 <=? length) && (length <=? 255)) then
    Raise (ValueError FrameLenOutOfRange)
  else
    hdr <- py_bytes [stx self; length; addr_u8; cmd_u8] ;;
    let head := hdr ++ payload in
    let crc := crc16_modbus head in
    let crcl := Z.land crc 0xFF in
    let crch := Z.land (Z.shiftr crc 8) 0xFF in
    tail <- py_bytes [crcl; crch] ;;
    Ok (head ++ tail).

(** ** The frame validator *)

(** [b[lo:hi]] *)
Definition slice (lo hi : nat) (b : bytes) : bytes :=
  firstn (hi - lo) (skipn lo b).

Definition byte_at (i : nat) (b : bytes) : Z := Z_of_byte (nth i b x00).

(** The validator, with the first offset [crc_from] of the checksummed
    region left open: the region is [buf[crc_from : 2 + LEN]]. *)
Definition parse_over (crc_from : nat) (stx : Z) (buf : bytes)
  : result spec_error (Z * Z * bytes) :=
  if (List.length buf <? 6)%nat then Raise (FormatError "too short")
  else if negb (byte_at 0 buf =? stx) then Raise (FormatError "bad STX")
  else
    let len := Z.to_nat (byte_at 1 buf) in
    if (List.length buf <? 1 + 1 + len + 2)%nat then
      Raise (FormatError "truncated")
    else
      let crc := CRC16Modbus.checksum (slice crc_from (2 + len) buf) in
      if negb ((byte_at (2 + len) buf =? crc mod 256)
               && (byte_at (3 + len) buf =? crc / 256 mod 256))
      then Raise ChecksumError
      else Ok (byte_at 2 buf, byte_at 3 buf, slice 4 (2 + len) buf).

(** Modelled from the spec: the FrameValidator's [parse] is not present in
    the source.  It fails with "too short" on fewer than 6 bytes, with
    "bad STX" when the first byte is not the configured STX, with
    "truncated" when the buffer lacks [1 + 1 + LEN + 2] bytes, and with
    [ChecksumError] when the CRC16/Modbus recomputed over LEN through the
    end of the payload differs from the two trailing bytes (low, then
    high); otherwise it returns [addr = byte[2]], [cmd = byte[3]] and
    [payload = bytes[4 : 2+LEN]]. *)
Definition parse (stx : Z) (buf : bytes) : result spec_error (Z * Z * bytes) :=
  parse_over 1 stx buf.

(** The same validator with the checksummed region starting at STX, which
    is the region [build_frame] hands to [crc16_modbus]. *)
Definition parse_from_stx (stx : Z) (buf : bytes)
  : result spec_error (Z * Z * bytes) :=
  parse_over 0 stx buf.

(** ** [CommandSender.send] *)

(** The serial port as far as [send] acts on it: the bytes written to it
    so far, [ser.write(frame)] appending the frame.  (Failures of the port
    itself are not modelled.) *)
Definition wire : Type := bytes.

Definition ser_write (w : wire) (frame : bytes) : wire := w ++ frame.

(** [send]: the frame is built, written and returned; an exception of
    [build_frame] leaves before the write. *)
Definition send (self : CommandSender) (w : wire) (addr cmd data : pyval)
  : py bytes * wire :=
  match build_frame self addr cmd data with
  | Ok frame => (Ok frame, ser_write w frame)
  | Raise e => (Raise e, w)
  end.

(** The default of [send]'s [data] parameter: [b""]. *)
Definition send_default_data : pyval := PyBytes [].

(** ** Auxiliary definitions for the proofs *)

(** Exhaustive checks over an interval of integers. *)
Fixpoint all_from (n : nat) (z : Z) (p : Z -> bool) : bool :=
  match n with
  | O => true
  | S k => p z && all_from k (z + 1) p
  end.

(** The 16-bit register values. *)
Definition u16 (z : Z) : Prop := 0 <= z < 65536.

(** The inner pass can be undone: bit 15 of its result tells whether the
    polynomial was applied. *)
Definition crc_unbit (r : Z) : Z :=
  if Z.testbit r 15 then Z.lor (Z.shiftl (Z.lxor r 0xA001) 1) 1
  else Z.shiftl r 1.

(** The frame assembled from coerced fields, as [build_frame] lays it
    out: [head = bytes([stx, length, addr_u8, cmd_u8]) + payload], then the
    low and the high byte of [crc16_modbus(head)]. *)
Definition frame_head (stx_byte addr_u8 cmd_u8 : Z) (payload : bytes) : bytes :=
  to_byte stx_byte :: to_byte (2 + Z.of_nat (List.length payload))
    :: to_byte addr_u8 :: to_byte cmd_u8 :: payload.

Definition frame_of (stx_byte addr_u8 cmd_u8 : Z) (payload : bytes) : bytes :=
  let head := frame_head stx_byte addr_u8 cmd_u8 payload in
  let crc := crc16_modbus head in
  head ++ [to_byte (crc mod 256); to_byte (crc / 256)].

(** What [data_to_2_bytes] makes of a byte payload: a single byte [b0]
    becomes [[0x00, b0]], any other length is kept. *)
Definition promoted (payload : bytes) : bytes :=
  match payload with
  | [b0] => [x00; b0]
  | _ => payload
  end.

(** What a digit of base 16 or less is not: whitespace, a sign, an
    underscore or the [x] of a prefix. *)
Definition plain_digit (c : ascii) : bool :=
  negb (int_space c) && negb (Ascii.eqb c "+") && negb (Ascii.eqb c "-")
  && negb (is_underscore c) && negb (Ascii.eqb c "x")
  && negb (Ascii.eqb c "X").

(** Equality test on the result of a coercion to an integer. *)
Definition returns (r : py Z) (v : Z) : bool :=
  match r with
  | Ok w => w =? v
  | Raise _ => false
  end.

(** No character is whitespace for [str.strip]. *)
Definition no_space (s : string) : bool :=
  all_chars (fun c => negb (isspace c)) s.

(** Every character is below U+0080. *)
Definition is_ascii_text (s : string) : bool :=
  all_chars (fun c => code c <? 128) s.

(** The argument shapes [parse_u8] has a branch for. *)
Definition supported_u8 (x : pyval) : bool :=
  match x with
  | PyInt _ | PyBytes _ | PyStr _ => true
  | PyByteArray _ | PyNone | PyOther => false
  end.

Definition is_type_error (e : exn) : bool :=
  match e with
  | TypeError _ => true
  | ValueError _ => false
  end.

(** The digits of the docstring's two-digit forms ['01'] and ['0x01']:
    [v] as two hexadecimal digits, in lower or in upper case. *)
Definition hex2 (upper : bool) (v : Z) : string :=
  let digits : string :=
    if upper then "0123456789ABCDEF"%string
    else "0123456789abcdef"%string in
  let digit d :=
    match String.get (Z.to_nat d) digits with
    | Some ch => ch
    | None => "0"%char
    end in
  String (digit (v / 16)) (String (digit (v mod 16)) EmptyString).

(** The ways the docstring writes a value as text. *)
Definition text_forms (v : Z) : list string :=
  [hex2 false v; hex2 true v;
   ("0x" ++ hex2 false v)%string; ("0x" ++ hex2 true v)%string;
   ("0X" ++ hex2 false v)%string; ("0X" ++ hex2 true v)%string].

(** * Properties *)

Arguments crc_bit : simpl never.
Arguments crc_byte : simpl never.
Arguments crc16_modbus : simpl never.
Arguments CRC16Modbus.checksum : simpl never.

(** ** Bytes and results *)

Lemma Z_of_byte_range (b : byte) : 0 <= Z_of_byte b <= 255.
Proof.
  unfold Z_of_byte. pose proof (Byte.to_N_bounded b). lia.
Qed.

Lemma to_byte_of_byte (b : byte) : to_byte (Z_of_byte b) = b.
Proof.
  unfold to_byte. pose proof (Z_of_byte_range b) as Hr.
  rewrite Z.mod_small by lia. unfold Z_of_byte.
  rewrite N2Z.id, Byte.of_to_N. reflexivity.
Qed.

Lemma Z_of_to_byte (z : Z) : Z_of_byte (to_byte z) = z mod 256.
Proof.
  unfold to_byte, Z_of_byte.
  pose proof (Z.mod_pos_bound z 256 ltac:(lia)) as Hm.
  destruct (Byte.of_N (Z.to_N (z mod 256))) as [b|] eqn:E.
  - apply Byte.to_of_N in E. rewrite E. lia.
  - apply Byte.of_N_None_iff in E. lia.
Qed.

Lemma Z_of_to_byte_u8 (z : Z) : 0 <= z <= 255 -> Z_of_byte (to_byte z) = z.
Proof.
  intros H. rewrite Z_of_to_byte. apply Z.mod_small. lia.
Qed.

Lemma is_u8_spec (z : Z) : is_u8 z = true <-> 0 <= z <= 255.
Proof. unfold is_u8. lia. Qed.

Lemma is_u8_false (z : Z) : is_u8 z = false <-> ~ 0 <= z <= 255.
Proof. unfold is_u8. lia. Qed.

Lemma py_bytes_u8 (l : list Z) :
  forallb is_u8 l = true -> py_bytes l = Ok (map to_byte l).
Proof.
  induction l as [|z l IH]; simpl; [reflexivity|].
  intros H. apply andb_prop in H as [Hz Hl].
  rewrite Hz, (IH Hl). reflexivity.
Qed.

Lemma bind_ok {E A B : Type} (m : result E A) (k : A -> result E B) (b : B) :
  bind m k = Ok b -> exists a, m = Ok a /\ k a = Ok b.
Proof.
  destruct m as [a|e]; simpl; intros H; [eauto | discriminate].
Qed.

(** ** The checksum *)

Lemma crc_bit_shift_step (crc : Z) : crc_bit crc = CRC16Modbus.shift_step crc.
Proof.
  unfold crc_bit, CRC16Modbus.shift_step.
  assert (Hl : Z.land crc 1 = crc mod 2) by (apply (Z.land_ones crc 1); lia).
  assert (Hs : Z.shiftr crc 1 = crc / 2)
    by (apply (Z.shiftr_div_pow2 crc 1); lia).
  cbv zeta. rewrite Hl, Hs, Z.bit0_odd, Zodd_mod.
  pose proof (Z.mod_pos_bound crc 2 ltac:(lia)) as Hm.
  destruct (Z.eqb_spec (crc mod 2) 0) as [E|E], (Z.eqb_spec (crc mod 2) 1);
    try reflexivity; lia.
Qed.

Lemma iter_shift_steps (n : nat) (reg : Z) :
  Nat.iter n crc_bit reg = CRC16Modbus.shift_steps n reg.
Proof.
  revert reg. induction n as [|n IH]; intros reg; [reflexivity|].
  rewrite Nat.iter_succ_r. simpl. rewrite <- crc_bit_shift_step. apply IH.
Qed.

Lemma fold_crc_run (data : bytes) (reg : Z) :
  fold_left crc_byte data reg = CRC16Modbus.run reg data.
Proof.
  revert reg. induction data as [|b rest IH]; intros reg; simpl;
    [reflexivity|].
  rewrite IH. unfold crc_byte. rewrite iter_shift_steps. reflexivity.
Qed.

Lemma crc16_modbus_checksum (data : bytes) :
  crc16_modbus data = CRC16Modbus.checksum data.
Proof.
  unfold crc16_modbus, CRC16Modbus.checksum.
  rewrite fold_crc_run. change 0xFFFF with (Z.ones 16).
  apply Z.land_ones. lia.
Qed.

Lemma all_from_spec (p : Z -> bool) (n : nat) (z : Z) :
  all_from n z p = true ->
  forall x, z <= x < z + Z.of_nat n -> p x = true.
Proof.
  revert z. induction n as [|n IH]; intros z H x Hx; [lia|].
  simpl in H. apply andb_prop in H as [Hz Hrest].
  destruct (Z.eq_dec x z) as [->|Hne]; [assumption|].
  apply (IH (z + 1) Hrest). lia.
Qed.

Lemma crc_bit_u16 (s : Z) : u16 s -> u16 (crc_bit s).
Proof.
  intros Hs.
  assert (H : all_from (Z.to_nat 65536) 0
                (fun s => (0 <=? crc_bit s) && (crc_bit s <? 65536)) = true)
    by (vm_compute; reflexivity).
  pose proof (all_from_spec _ _ _ H s) as Hx. unfold u16 in *.
  rewrite Z2Nat.id in Hx by lia. specialize (Hx ltac:(lia)). cbv beta in Hx. lia.
Qed.

Lemma crc_unbit_bit (s : Z) : u16 s -> crc_unbit (crc_bit s) = s.
Proof.
  intros Hs.
  assert (H : all_from (Z.to_nat 65536) 0
                (fun s => crc_unbit (crc_bit s) =? s) = true)
    by (vm_compute; reflexivity).
  pose proof (all_from_spec _ _ _ H s) as Hx. unfold u16 in *.
  rewrite Z2Nat.id in Hx by lia. specialize (Hx ltac:(lia)). cbv beta in Hx. lia.
Qed.

Lemma iter_crc_bit_u16 (n : nat) (s : Z) : u16 s -> u16 (Nat.iter n crc_bit s).
Proof.
  intros Hs. induction n as [|n IH]; simpl; [assumption|].
  apply crc_bit_u16, IH.
Qed.

Lemma iter_crc_bit_inj (n : nat) (s t : Z) :
  u16 s -> u16 t -> Nat.iter n crc_bit s = Nat.iter n crc_bit t -> s = t.
Proof.
  intros Hs Ht. induction n as [|n IH]; simpl; intros H; [assumption|].
  apply IH.
  rewrite <- (crc_unbit_bit (Nat.iter n crc_bit s)),
          <- (crc_unbit_bit (Nat.iter n crc_bit t))
    by (apply iter_crc_bit_u16; assumption).
  rewrite H. reflexivity.
Qed.

Lemma lxor_u16 (s b : Z) : u16 s -> 0 <= b <= 255 -> u16 (Z.lxor s b).
Proof.
  unfold u16. intros Hs Hb. split.
  - apply Z.lxor_nonneg. lia.
  - destruct (Z.eq_dec (Z.lxor s b) 0) as [->|Hne]; [lia|].
    assert (0 < Z.lxor s b)
      by (pose proof (proj2 (Z.lxor_nonneg s b)); lia).
    apply (Z.log2_lt_pow2 _ 16); [assumption|].
    pose proof (Z.log2_lxor s b ltac:(lia) ltac:(lia)) as Hl.
    assert (Z.log2 s < 16).
    { destruct (Z.eq_dec s 0) as [->|]; [simpl; lia|].
      apply Z.log2_lt_pow2; lia. }
    assert (Z.log2 b < 16).
    { destruct (Z.eq_dec b 0) as [->|]; [simpl; lia|].
      apply Z.log2_lt_pow2; lia. }
    lia.
Qed.

Lemma crc_byte_u16 (s : Z) (b : byte) : u16 s -> u16 (crc_byte s b).
Proof.
  intros Hs. unfold crc_byte. apply iter_crc_bit_u16, lxor_u16;
    [assumption | apply Z_of_byte_range].
Qed.

Lemma crc_byte_inj (s t : Z) (b : byte) :
  u16 s -> u16 t -> crc_byte s b = crc_byte t b -> s = t.
Proof.
  intros Hs Ht H. unfold crc_byte in H.
  apply iter_crc_bit_inj in H;
    try (apply lxor_u16; [assumption | apply Z_of_byte_range]).
  rewrite <- (Z.lxor_0_r s), <- (Z.lxor_0_r t),
          <- (Z.lxor_nilpotent (Z_of_byte b)), <- !Z.lxor_assoc, H.
  reflexivity.
Qed.

Lemma fold_crc_u16 (data : bytes) (s : Z) :
  u16 s -> u16 (fold_left crc_byte data s).
Proof.
  revert s. induction data as [|b rest IH]; intros s Hs; simpl;
    [assumption|].
  apply IH, crc_byte_u16, Hs.
Qed.

Lemma fold_crc_inj (data : bytes) (s t : Z) :
  u16 s -> u16 t ->
  fold_left crc_byte data s = fold_left crc_byte data t -> s = t.
Proof.
  revert s t. induction data as [|b rest IH]; intros s t Hs Ht H; simpl in H;
    [assumption|].
  apply (crc_byte_inj s t b Hs Ht).
  apply IH; [apply crc_byte_u16, Hs | apply crc_byte_u16, Ht | exact H].
Qed.

Lemma u16_init : u16 0xFFFF.
Proof. unfold u16. lia. Qed.

Lemma land_u16 (s : Z) : u16 s -> Z.land s 0xFFFF = s.
Proof.
  intros Hs. change 0xFFFF with (Z.ones 16). rewrite Z.land_ones by lia.
  apply Z.mod_small. exact Hs.
Qed.

Lemma crc16_modbus_fold (data : bytes) :
  crc16_modbus data = fold_left crc_byte data 0xFFFF.
Proof.
  unfold crc16_modbus. apply land_u16, fold_crc_u16, u16_init.
Qed.

Lemma crc16_modbus_u16 (data : bytes) : u16 (crc16_modbus data).
Proof.
  rewrite crc16_modbus_fold. apply fold_crc_u16, u16_init.
Qed.

(** No leading byte leaves the initial register unchanged. *)
Lemma crc_first_byte_moves (b : byte) : crc_byte 0xFFFF b <> 0xFFFF.
Proof.
  assert (H : all_from 256 0
                (fun z => negb (crc_byte 0xFFFF (to_byte z) =? 0xFFFF)) = true)
    by (vm_compute; reflexivity).
  pose proof (all_from_spec _ _ _ H (Z_of_byte b)) as Hx.
  pose proof (Z_of_byte_range b) as Hr.
  specialize (Hx ltac:(lia)). cbv beta in Hx.
  rewrite to_byte_of_byte in Hx.
  intros E. rewrite E in Hx. discriminate.
Qed.

(** Prepending a byte always changes the checksum. *)
Lemma crc16_modbus_cons_neq (b : byte) (data : bytes) :
  crc16_modbus (b :: data) <> crc16_modbus data.
Proof.
  rewrite !crc16_modbus_fold. simpl. intros E.
  apply fold_crc_inj in E;
    [exact (crc_first_byte_moves b E) | apply crc_byte_u16, u16_init
    | apply u16_init].
Qed.

(** ** Coercion results are bytes *)

Lemma range_u8_ok (v w : Z) : range_u8 v = Ok w -> 0 <= w <= 255.
Proof.
  unfold range_u8. destruct (is_u8 v) eqn:E; simpl; intros H;
    [|discriminate].
  injection H as <-. apply is_u8_spec, E.
Qed.

Lemma range_u8_in (v : Z) : 0 <= v <= 255 -> range_u8 v = Ok v.
Proof.
  intros H. unfold range_u8.
  replace (is_u8 v) with true by (symmetry; apply is_u8_spec; lia).
  reflexivity.
Qed.

Lemma range_u8_out (v : Z) :
  ~ 0 <= v <= 255 -> range_u8 v = Raise (ValueError OutOfRangeU8).
Proof.
  intros H. unfold range_u8.
  replace (is_u8 v) with false by (symmetry; apply is_u8_false; lia).
  reflexivity.
Qed.

Lemma parse_u8_str_u8 (x : string) (v : Z) :
  parse_u8_str x = Ok v -> 0 <= v <= 255.
Proof.
  unfold parse_u8_str. intros H. apply bind_ok in H as (w & _ & H).
  eapply range_u8_ok, H.
Qed.

Lemma parse_u8_u8 (x : pyval) (v : Z) : parse_u8 x = Ok v -> 0 <= v <= 255.
Proof.
  destruct x as [z|b|b|s| |]; simpl; intros H; try discriminate.
  - eapply range_u8_ok, H.
  - destruct b as [|b0 [|b1 rest]].
    + apply bind_ok in H as (s & _ & H). eapply parse_u8_str_u8, H.
    + injection H as <-. apply Z_of_byte_range.
    + apply bind_ok in H as (s & _ & H). eapply parse_u8_str_u8, H.
  - eapply parse_u8_str_u8, H.
Qed.

(** ** The frame that [build_frame] returns *)

Lemma stx_new_sender (stx_arg : Z) : stx (new_sender stx_arg) = stx_arg mod 256.
Proof.
  simpl. change 0xFF with (Z.ones 8). rewrite Z.land_ones by lia. reflexivity.
Qed.

Lemma crc_low_high (crc : Z) :
  u16 crc ->
  Z.land crc 0xFF = crc mod 256 /\ Z.land (Z.shiftr crc 8) 0xFF = crc / 256
  /\ 0 <= crc mod 256 <= 255 /\ 0 <= crc / 256 <= 255.
Proof.
  unfold u16. intros H.
  assert (Hm : forall x, Z.land x 0xFF = x mod 256)
    by (intros x; apply (Z.land_ones x 8); lia).
  assert (Hs : Z.shiftr crc 8 = crc / 256)
    by (apply (Z.shiftr_div_pow2 crc 8); lia).
  pose proof (Z.mod_pos_bound crc 256 ltac:(lia)).
  assert (0 <= crc / 256 < 256)
    by (split; [apply Z.div_pos; lia | apply Z.div_lt_upper_bound; lia]).
  rewrite !Hm, Hs, (Z.mod_small (crc / 256)) by lia. lia.
Qed.

(** [build_frame] in one equation: the three coercions in order, the
    length check, and the assembled frame. *)
Lemma build_frame_eq (stx_arg : Z) (addr cmd data : pyval) :
  build_frame (new_sender stx_arg) addr cmd data =
  (addr_u8 <- parse_u8 addr ;;
   cmd_u8 <- parse_u8 cmd ;;
   payload <- data_to_2_bytes data ;;
   if (List.length payload <=? 253)%nat
   then Ok (frame_of (stx_arg mod 256) addr_u8 cmd_u8 payload)
   else Raise (ValueError FrameLenOutOfRange)).
Proof.
  unfold build_frame. rewrite stx_new_sender.
  destruct (parse_u8 addr) as [a|e] eqn:Ea; cbn [bind]; [|reflexivity].
  destruct (parse_u8 cmd) as [c|e] eqn:Ec; cbn [bind]; [|reflexivity].
  destruct (data_to_2_bytes data) as [p|e]; cbn [bind]; [|reflexivity].
  apply parse_u8_u8 in Ea, Ec.
  pose proof (Z.mod_pos_bound stx_arg 256 ltac:(lia)) as Hs.
  destruct (Nat.leb_spec (List.length p) 253) as [Hp|Hp].
  - replace ((2 <=? 2 + Z.of_nat (List.length p))
             && (2 + Z.of_nat (List.length p) <=? 255)) with true by lia.
    cbn [negb].
    rewrite (py_bytes_u8 [stx_arg mod 256; 2 + Z.of_nat (List.length p); a; c])
      by (cbn [forallb]; unfold is_u8; lia).
    cbn [bind map app]. fold (frame_head (stx_arg mod 256) a c p).
    destruct (crc_low_high _ (crc16_modbus_u16 (frame_head (stx_arg mod 256) a c p)))
      as (-> & -> & Hlo & Hhi).
    rewrite py_bytes_u8 by (cbn [forallb]; unfold is_u8; lia).
    reflexivity.
  - replace ((2 <=? 2 + Z.of_nat (List.length p))
             && (2 + Z.of_nat (List.length p) <=? 255)) with false by lia.
    reflexivity.
Qed.

Lemma build_frame_ok_inv (stx_arg : Z) (addr cmd data : pyval) (frame : bytes) :
  build_frame (new_sender stx_arg) addr cmd data = Ok frame ->
  exists a c p,
    parse_u8 addr = Ok a /\ parse_u8 cmd = Ok c /\ data_to_2_bytes data = Ok p
    /\ 0 <= a <= 255 /\ 0 <= c <= 255 /\ (List.length p <= 253)%nat
    /\ frame = frame_of (stx_arg mod 256) a c p.
Proof.
  rewrite build_frame_eq. intros H.
  apply bind_ok in H as (a & Ha & H).
  apply bind_ok in H as (c & Hc & H).
  apply bind_ok in H as (p & Hp & H).
  destruct (Nat.leb_spec (List.length p) 253) as [Hl|Hl]; [|discriminate].
  injection H as <-. exists a, c, p.
  repeat split; try assumption;
    try (eapply parse_u8_u8; eassumption); reflexivity.
Qed.

Lemma frame_of_length (s a c : Z) (p : bytes) :
  List.length (frame_of s a c p) = (6 + List.length p)%nat.
Proof.
  unfold frame_of, frame_head. cbn [app List.length].
  rewrite length_app. cbn [List.length]. lia.
Qed.

(** C4: [crc16_modbus] computes the checksum the specification describes
    (register from [0xFFFF], each byte XORed in and followed by eight
    conditional shift steps with [0xA001], result masked to 16 bits) on
    every byte sequence; the result is a 16-bit value; the checksum of the
    empty sequence is [0xFFFF]; and the standard check input "123456789"
    gives [0x4B37].  Being a function of its argument alone, it returns
    equal results on equal inputs. *)
Theorem crc16_modbus_as_specified (data : bytes) :
  crc16_modbus data = CRC16Modbus.checksum data
  /\ 0 <= crc16_modbus data < 2 ^ 16
  /\ crc16_modbus [] = 0xFFFF
  /\ crc16_modbus [x31; x32; x33; x34; x35; x36; x37; x38; x39] = 0x4B37.
Proof.
  split; [apply crc16_modbus_checksum|].
  split; [apply crc16_modbus_u16|].
  split; vm_compute; reflexivity.
Qed.

(** C1 (as the code has it): on every successful [build_frame] the two
    trailing bytes are the low and then the high byte of the CRC16/Modbus
    of the whole head, STX included through the end of the payload; and
    with the default STX, [build_frame(0x01, 0x02, 0x00)] is
    [A5 04 01 02 00 00] followed by the low and high bytes of the checksum
    of [A5 04 01 02 00 00], that is [49 12]. *)
Theorem build_frame_crc_covers_stx
    (stx_arg : Z) (addr cmd data : pyval) (frame : bytes) :
  build_frame (new_sender stx_arg) addr cmd data = Ok frame ->
  (exists a c p lo hi,
      let head := frame_head (stx (new_sender stx_arg)) a c p in
      frame = head ++ [lo; hi]
      /\ parse_u8 addr = Ok a /\ parse_u8 cmd = Ok c
      /\ data_to_2_bytes data = Ok p
      /\ Z_of_byte lo = crc16_modbus head mod 256
      /\ Z_of_byte hi = crc16_modbus head / 256
      /\ crc16_modbus head = Z_of_byte lo + 256 * Z_of_byte hi)
  /\ build_frame default_sender (PyInt 0x01) (PyInt 0x02) (PyInt 0x00)
     = Ok ([xa5; x04; x01; x02; x00; x00]
             ++ [to_byte (crc16_modbus [xa5; x04; x01; x02; x00; x00] mod 256);
                 to_byte (crc16_modbus [xa5; x04; x01; x02; x00; x00] / 256)])
  /\ crc16_modbus [xa5; x04; x01; x02; x00; x00] = 0x1249.
Proof.
  intros H. split; [|split; vm_compute; reflexivity].
  apply build_frame_ok_inv in H as (a & c & p & Ha & Hc & Hp & _ & _ & _ & ->).
  rewrite stx_new_sender.
  set (head := frame_head (stx_arg mod 256) a c p).
  destruct (crc_low_high _ (crc16_modbus_u16 head)) as (_ & _ & Hlo & Hhi).
  exists a, c, p, (to_byte (crc16_modbus head mod 256)),
    (to_byte (crc16_modbus head / 256)).
  cbv zeta. fold head.
  rewrite !Z_of_to_byte_u8 by assumption.
  repeat split; try assumption.
  pose proof (Z.div_mod (crc16_modbus head) 256 ltac:(lia)). lia.
Qed.

Lemma build_frame_crc_covers_stx_witness :
  exists a c p lo hi,
    let head := frame_head (stx (new_sender 0xA5)) a c p in
    [xa5; x04; x07; x09; x00; x19; xf9; x92] = head ++ [lo; hi]
    /\ parse_u8 (PyInt 7) = Ok a /\ parse_u8 (PyStr "09") = Ok c
    /\ data_to_2_bytes (PyInt 25) = Ok p
    /\ Z_of_byte lo = crc16_modbus head mod 256
    /\ Z_of_byte hi = crc16_modbus head / 256
    /\ crc16_modbus head = Z_of_byte lo + 256 * Z_of_byte hi.
Proof.
  apply (build_frame_crc_covers_stx 0xA5 (PyInt 7) (PyStr "09") (PyInt 25)).
  vm_compute. reflexivity.
Defined.

(** C1 fails as stated: the trailing bytes of [build_frame(0x01, 0x02,
    0x00)] are not the checksum of [04 01 02 00 00], the frame without its
    STX. *)
Lemma build_frame_crc_excluding_stx_fails :
  build_frame default_sender (PyInt 0x01) (PyInt 0x02) (PyInt 0x00)
  <> Ok ([xa5; x04; x01; x02; x00; x00]
           ++ [to_byte (crc16_modbus [x04; x01; x02; x00; x00] mod 256);
               to_byte (crc16_modbus [x04; x01; x02; x00; x00] / 256)]).
Proof.
  vm_compute. discriminate.
Qed.

(** C2 (as the code has it): a frame that [build_frame] returns is
    [STX | LEN | ADDR | CMD | PAYLOAD | CRC_LOW | CRC_HIGH] with
    [LEN = 2 + len(PAYLOAD)] and [2 <= LEN <= 255], so the payload has
    between 0 and 253 bytes (253 is reached); and whenever the coercions
    succeed but the computed length is outside 2..255, [build_frame]
    raises the frame-length [ValueError], a [RangeError] of the
    specification. *)
Theorem build_frame_layout (stx_arg : Z) (addr cmd data : pyval) :
  (forall frame,
      build_frame (new_sender stx_arg) addr cmd data = Ok frame ->
      exists a c p lo hi,
        parse_u8 addr = Ok a /\ parse_u8 cmd = Ok c
        /\ data_to_2_bytes data = Ok p
        /\ frame = [to_byte (stx (new_sender stx_arg));
                    to_byte (2 + Z.of_nat (List.length p));
                    to_byte a; to_byte c] ++ p ++ [lo; hi]
        /\ byte_at 1 frame = 2 + Z.of_nat (List.length p)
        /\ 2 <= byte_at 1 frame <= 255
        /\ (0 <= List.length p <= 253)%nat)
  /\ (forall a c p,
         parse_u8 addr = Ok a -> parse_u8 cmd = Ok c ->
         data_to_2_bytes data = Ok p ->
         ~ 2 <= 2 + Z.of_nat (List.length p) <= 255 ->
         build_frame (new_sender stx_arg) addr cmd data
         = Raise (ValueError FrameLenOutOfRange)
         /\ spec_class (ValueError FrameLenOutOfRange) = RangeError)
  /\ (exists frame,
         build_frame default_sender (PyInt 1) (PyInt 2)
           (PyBytes (repeat x00 253)) = Ok frame
         /\ byte_at 1 frame = 255).
Proof.
  split; [|split].
  - intros frame H.
    apply build_frame_ok_inv in H as (a & c & p & Ha & Hc & Hp & _ & _ & Hl & ->).
    rewrite stx_new_sender.
    exists a, c, p,
      (to_byte (crc16_modbus (frame_head (stx_arg mod 256) a c p) mod 256)),
      (to_byte (crc16_modbus (frame_head (stx_arg mod 256) a c p) / 256)).
    assert (Hb : byte_at 1 (frame_of (stx_arg mod 256) a c p)
                 = 2 + Z.of_nat (List.length p)).
    { unfold byte_at, frame_of, frame_head. cbn [app nth].
      apply Z_of_to_byte_u8. lia. }
    rewrite Hb. repeat split; try assumption; lia.
  - intros a c p Ha Hc Hp Hlen. split; [|reflexivity].
    rewrite build_frame_eq, Ha, Hc, Hp. cbn [bind].
    destruct (Nat.leb_spec (List.length p) 253); [lia | reflexivity].
  - eexists. split; vm_compute; reflexivity.
Qed.

Lemma build_frame_layout_witness :
  (exists a c p lo hi,
      parse_u8 (PyStr "0x01") = Ok a /\ parse_u8 (PyBytes [x10]) = Ok c
      /\ data_to_2_bytes (PyInt 25) = Ok p
      /\ [xa5; x04; x01; x10; x00; x19; x28; xdd]
         = [to_byte (stx (new_sender 0xA5));
            to_byte (2 + Z.of_nat (List.length p));
            to_byte a; to_byte c] ++ p ++ [lo; hi]
      /\ byte_at 1 [xa5; x04; x01; x10; x00; x19; x28; xdd]
         = 2 + Z.of_nat (List.length p)
      /\ 2 <= byte_at 1 [xa5; x04; x01; x10; x00; x19; x28; xdd] <= 255
      /\ (0 <= List.length p <= 253)%nat)
  /\ build_frame (new_sender 0xA5) (PyInt 1) (PyInt 2)
       (PyBytes (repeat x00 254))
     = Raise (ValueError FrameLenOutOfRange).
Proof.
  split.
  - apply (proj1 (build_frame_layout 0xA5 (PyStr "0x01") (PyBytes [x10])
                    (PyInt 25))).
    vm_compute. reflexivity.
  - apply (proj1 (proj2 (build_frame_layout 0xA5 (PyInt 1) (PyInt 2)
                           (PyBytes (repeat x00 254))))
             1 2 (repeat x00 254));
      try reflexivity.
    rewrite repeat_length. lia.
Defined.

(** C2 fails as stated: a payload of 252 bytes is accepted, beyond the
    251 the claim allows. *)
Lemma build_frame_payload_above_251 :
  ~ (forall addr cmd data frame p,
        build_frame default_sender addr cmd data = Ok frame ->
        data_to_2_bytes data = Ok p ->
        (List.length p <= 251)%nat).
Proof.
  intros H.
  destruct (build_frame default_sender (PyInt 1) (PyInt 2)
              (PyBytes (repeat x00 252))) as [frame|e] eqn:E;
    [|vm_compute in E; discriminate].
  specialize (H _ _ _ frame (repeat x00 252) E eq_refl).
  rewrite repeat_length in H. lia.
Qed.

(** C8: the constructor stores [stx & 0xFF], which is the argument modulo
    256 for every integer, so an out-of-range STX such as [0x1A5] is
    truncated to [0xA5] instead of being rejected; and the first byte of
    every frame the sender builds is that stored value, in 0..255. *)
Theorem sender_stx_truncated (stx_arg : Z) :
  stx (new_sender stx_arg) = stx_arg mod 256
  /\ 0 <= stx (new_sender stx_arg) <= 255
  /\ stx (new_sender 0x1A5) = 0xA5
  /\ (forall addr cmd data frame,
         build_frame (new_sender stx_arg) addr cmd data = Ok frame ->
         byte_at 0 frame = stx_arg mod 256
         /\ 0 <= byte_at 0 frame <= 255
         /\ exists rest, frame = to_byte (stx_arg mod 256) :: rest).
Proof.
  pose proof (Z.mod_pos_bound stx_arg 256 ltac:(lia)) as Hm.
  rewrite stx_new_sender.
  split; [reflexivity|]. split; [lia|]. split; [reflexivity|].
  intros addr cmd data frame H.
  apply build_frame_ok_inv in H as (a & c & p & _ & _ & _ & _ & _ & _ & ->).
  unfold byte_at, frame_of, frame_head. cbn [app nth].
  rewrite Z_of_to_byte_u8 by lia.
  split; [reflexivity|]. split; [lia|]. eexists. reflexivity.
Qed.

Lemma sender_stx_truncated_witness :
  byte_at 0 [xa5; x02; x01; x02; x03; x79] = 0x1A5 mod 256
  /\ 0 <= byte_at 0 [xa5; x02; x01; x02; x03; x79] <= 255
  /\ exists rest, [xa5; x02; x01; x02; x03; x79] = to_byte (0x1A5 mod 256) :: rest.
Proof.
  apply (proj2 (proj2 (proj2 (sender_stx_truncated 0x1A5)))
           (PyInt 1) (PyInt 2) PyNone).
  vm_compute. reflexivity.
Defined.

(** ** Validating a built frame *)

Section BuiltFrame.

Variables (s a c : Z) (p : bytes).
Hypothesis Hs : 0 <= s <= 255.
Hypothesis Ha : 0 <= a <= 255.
Hypothesis Hc : 0 <= c <= 255.
Hypothesis Hp : (List.length p <= 253)%nat.

Let head : bytes := frame_head s a c p.
Let crc : Z := crc16_modbus head.

Lemma frame_of_unfold :
  frame_of s a c p
  = to_byte s :: to_byte (2 + Z.of_nat (List.length p)) :: to_byte a
      :: to_byte c :: p ++ [to_byte (crc mod 256); to_byte (crc / 256)].
Proof. reflexivity. Qed.

Lemma frame_len_field :
  Z.to_nat (byte_at 1 (frame_of s a c p)) = (2 + List.length p)%nat.
Proof.
  rewrite frame_of_unfold. unfold byte_at. cbn [nth].
  rewrite Z_of_to_byte_u8 by lia. lia.
Qed.

Lemma frame_slice (lo : nat) :
  (lo <= 4)%nat ->
  slice lo (2 + (2 + List.length p)) (frame_of s a c p) = skipn lo head.
Proof.
  intros Hlo. unfold slice.
  assert (E : frame_of s a c p
              = head ++ [to_byte (crc mod 256); to_byte (crc / 256)])
    by reflexivity.
  assert (Hh : List.length head = (4 + List.length p)%nat) by reflexivity.
  rewrite E, skipn_app.
  replace (lo - List.length head)%nat with 0%nat by lia.
  cbn [skipn]. rewrite firstn_app, length_skipn, Hh.
  replace (2 + (2 + List.length p) - lo - (4 + List.length p - lo))%nat
    with 0%nat by lia.
  cbn [firstn]. rewrite app_nil_r.
  apply firstn_all2. rewrite length_skipn, Hh. lia.
Qed.

Lemma frame_crc_bytes :
  byte_at (2 + (2 + List.length p)) (frame_of s a c p) = crc mod 256
  /\ byte_at (3 + (2 + List.length p)) (frame_of s a c p) = crc / 256.
Proof.
  destruct (crc_low_high _ (crc16_modbus_u16 head)) as (_ & _ & Hl & Hh).
  fold crc in Hl, Hh.
  rewrite frame_of_unfold. unfold byte_at. cbn [Nat.add nth].
  rewrite !app_nth2 by lia.
  replace (List.length p - List.length p)%nat with 0%nat by lia.
  replace (S (List.length p) - List.length p)%nat with 1%nat by lia.
  cbn [nth]. rewrite !Z_of_to_byte_u8 by assumption. split; reflexivity.
Qed.

(** The validator on a built frame: everything passes up to the checksum
    comparison, which succeeds exactly when the region it recomputes over
    has the checksum of the whole head. *)
Lemma parse_over_frame_of (lo : nat) :
  (lo <= 4)%nat ->
  parse_over lo s (frame_of s a c p)
  = if crc16_modbus (skipn lo head) =? crc
    then Ok (a, c, p) else Raise ChecksumError.
Proof.
  intros Hlo. unfold parse_over.
  rewrite frame_of_length.
  replace (6 + List.length p <? 6)%nat with false
    by (symmetry; apply Nat.ltb_ge; lia).
  replace (byte_at 0 (frame_of s a c p)) with s
    by (rewrite frame_of_unfold; unfold byte_at; cbn [nth];
        rewrite Z_of_to_byte_u8 by lia; reflexivity).
  rewrite Z.eqb_refl. cbn [negb]. rewrite frame_len_field.
  replace (6 + List.length p <? 1 + 1 + (2 + List.length p) + 2)%nat
    with false by (symmetry; apply Nat.ltb_ge; lia).
  destruct frame_crc_bytes as [-> ->].
  rewrite <- crc16_modbus_checksum, !frame_slice by lia.
  replace (byte_at 2 (frame_of s a c p)) with a
    by (rewrite frame_of_unfold; unfold byte_at; cbn [nth];
        rewrite Z_of_to_byte_u8 by lia; reflexivity).
  replace (byte_at 3 (frame_of s a c p)) with c
    by (rewrite frame_of_unfold; unfold byte_at; cbn [nth];
        rewrite Z_of_to_byte_u8 by lia; reflexivity).
  replace (skipn 4 head) with p by reflexivity.
  pose proof (crc16_modbus_u16 (skipn lo head)) as Hu.
  pose proof (crc16_modbus_u16 head) as Hv. fold crc in Hv.
  unfold u16 in Hu, Hv.
  destruct (Z.eqb_spec (crc16_modbus (skipn lo head)) crc) as [E|E].
  - rewrite E, (Z.mod_small (crc / 256)), !Z.eqb_refl
      by (split; [apply Z.div_pos; lia | apply Z.div_lt_upper_bound; lia]).
    reflexivity.
  - destruct (Z.eqb_spec (crc mod 256) (crc16_modbus (skipn lo head) mod 256))
      as [E1|E1]; [|reflexivity].
    destruct (Z.eqb_spec (crc / 256)
                (crc16_modbus (skipn lo head) / 256 mod 256))
      as [E2|E2]; [|reflexivity].
    exfalso. apply E.
    rewrite Z.mod_small in E2
      by (split; [apply Z.div_pos; lia | apply Z.div_lt_upper_bound; lia]).
    rewrite (Z.div_mod (crc16_modbus (skipn lo head)) 256),
            (Z.div_mod crc 256) by lia.
    rewrite E1, E2. reflexivity.
Qed.

Lemma parse_from_stx_frame_of :
  parse_from_stx s (frame_of s a c p) = Ok (a, c, p).
Proof.
  unfold parse_from_stx. rewrite parse_over_frame_of by lia.
  cbn [skipn]. fold crc. rewrite Z.eqb_refl. reflexivity.
Qed.

Lemma parse_frame_of : parse s (frame_of s a c p) = Raise ChecksumError.
Proof.
  unfold parse. rewrite parse_over_frame_of by lia.
  destruct (Z.eqb_spec (crc16_modbus (skipn 1 head)) crc) as [E|E];
    [|reflexivity].
  exfalso. symmetry in E. revert E. apply crc16_modbus_cons_neq.
Qed.

End BuiltFrame.

Lemma data_to_2_bytes_bytes (payload : bytes) :
  data_to_2_bytes (PyBytes payload) = Ok (promoted payload).
Proof.
  destruct payload as [|b0 [|b1 [|b2 rest]]]; try reflexivity.
  cbn [data_to_2_bytes data_of_bytes promoted].
  rewrite py_bytes_u8
    by (cbn [forallb]; unfold is_u8; pose proof (Z_of_byte_range b0); lia).
  cbn [map]. rewrite to_byte_of_byte. reflexivity.
Qed.

Lemma promoted_length (payload : bytes) :
  (List.length payload <= 253)%nat ->
  (List.length (promoted payload) <= 253)%nat.
Proof.
  destruct payload as [|b0 [|b1 rest]]; cbn [promoted List.length]; lia.
Qed.

(** C3 (as the code and the specified validator have it): for every addr
    and cmd in 0..255 and every byte payload of 0 to 253 bytes,
    [build_frame] returns a frame in which the validator's fields are addr,
    cmd and the coerced payload (the payload itself, a single byte [b]
    being promoted to [00 b]); the validator accepts it with exactly these
    fields when it recomputes the checksum over STX through the end of the
    payload, the region [build_frame] checksums, whereas the specified
    [parse], recomputing over LEN through the end of the payload, rejects
    the frame with [ChecksumError]. *)
Theorem build_then_parse
    (stx_arg a c : Z) (payload : bytes) :
  0 <= a <= 255 -> 0 <= c <= 255 -> (List.length payload <= 253)%nat ->
  exists frame,
    build_frame (new_sender stx_arg) (PyInt a) (PyInt c) (PyBytes payload)
    = Ok frame
    /\ parse_from_stx (stx (new_sender stx_arg)) frame
       = Ok (a, c, promoted payload)
    /\ (List.length payload <> 1%nat -> promoted payload = payload)
    /\ parse (stx (new_sender stx_arg)) frame = Raise ChecksumError.
Proof.
  intros Ha Hc Hp.
  pose proof (Z.mod_pos_bound stx_arg 256 ltac:(lia)) as Hm.
  pose proof (promoted_length payload Hp) as Hl.
  exists (frame_of (stx_arg mod 256) a c (promoted payload)).
  rewrite build_frame_eq, stx_new_sender, data_to_2_bytes_bytes.
  cbn [parse_u8]. rewrite !range_u8_in by lia. cbn [bind].
  replace (List.length (promoted payload) <=? 253)%nat with true
    by (symmetry; apply Nat.leb_le; lia).
  split; [reflexivity|].
  split; [apply parse_from_stx_frame_of; lia|].
  split; [|apply parse_frame_of; lia].
  destruct payload as [|b0 [|b1 rest]]; cbn [List.length promoted];
    intros H; congruence.
Qed.

Lemma build_then_parse_witness :
  exists frame,
    build_frame (new_sender 0xA5) (PyInt 1) (PyInt 2) (PyBytes [x07; x08])
    = Ok frame
    /\ parse_from_stx (stx (new_sender 0xA5)) frame
       = Ok (1, 2, promoted [x07; x08])
    /\ (List.length [x07; x08] <> 1%nat -> promoted [x07; x08] = [x07; x08])
    /\ parse (stx (new_sender 0xA5)) frame = Raise ChecksumError.
Proof.
  apply (build_then_parse 0xA5 1 2 [x07; x08]); simpl; lia.
Defined.

(** C3 fails as stated: the frame built from addr 1, cmd 2 and the empty
    payload is rejected by the specified [parse]. *)
Lemma parse_build_round_trip_fails :
  ~ (forall a c payload frame,
        0 <= a <= 255 -> 0 <= c <= 255 ->
        (List.length payload <= 251)%nat ->
        build_frame default_sender (PyInt a) (PyInt c) (PyBytes payload)
        = Ok frame ->
        parse (stx default_sender) frame = Ok (a, c, payload)).
Proof.
  intros H.
  specialize (H 1 2 [] [xa5; x02; x01; x02; x03; x79]
                ltac:(lia) ltac:(lia) ltac:(simpl; lia) eq_refl).
  vm_compute in H. discriminate.
Qed.

(** ** Text and numerals *)

Lemma all_ascii (P : ascii -> bool) :
  all_from 256 0 (fun z => P (ascii_of_N (Z.to_N z))) = true ->
  forall c, P c = true.
Proof.
  intros H c.
  pose proof (all_from_spec _ _ _ H (Z.of_N (N_of_ascii c))) as Hx.
  pose proof (N_ascii_bounded c) as Hb.
  specialize (Hx ltac:(lia)). cbv beta in Hx.
  rewrite N2Z.id, ascii_N_embedding in Hx. exact Hx.
Qed.

Lemma digit_is_plain (c : ascii) :
  (digit_value c <? 16) = true -> plain_digit c = true.
Proof.
  pose proof (all_ascii
                (fun c => implb (digit_value c <? 16) (plain_digit c))
                ltac:(vm_compute; reflexivity) c) as H.
  cbv beta in H. intros E. rewrite E in H. exact H.
Qed.

Lemma hex_char_is_digit (c : ascii) :
  char_in c hex_alphabet = true -> (digit_value c <? 16) = true.
Proof.
  pose proof (all_ascii
                (fun c => implb (char_in c hex_alphabet) (digit_value c <? 16))
                ltac:(vm_compute; reflexivity) c) as H.
  cbv beta in H. intros E. rewrite E in H. exact H.
Qed.

Lemma all_hex_digits (s : string) : all_hex s = true -> all_digits 16 s = true.
Proof.
  unfold all_hex, all_digits.
  induction s as [|c s IH]; cbn [all_chars]; [reflexivity|].
  intros H. apply andb_prop in H as [Hc Hs].
  rewrite (hex_char_is_digit c Hc), (IH Hs). reflexivity.
Qed.

Lemma plain_digit_facts (c : ascii) :
  plain_digit c = true ->
  int_space c = false /\ Ascii.eqb c "+" = false /\ Ascii.eqb c "-" = false
  /\ is_underscore c = false /\ Ascii.eqb c "x" = false
  /\ Ascii.eqb c "X" = false.
Proof.
  unfold plain_digit. intros H.
  repeat (apply andb_prop in H as [H ?]).
  repeat split; apply negb_true_iff; assumption.
Qed.

Lemma scan_digits_plain (base : Z) (s : string) (acc : Z) :
  base <= 16 -> all_digits base s = true ->
  scan_digits base s acc false = Some (numeral base acc s, EmptyString).
Proof.
  intros Hb. unfold all_digits. revert acc.
  induction s as [|c s IH]; intros acc; cbn [all_chars scan_digits numeral];
    [reflexivity|].
  intros H. apply andb_prop in H as [Hc Hs].
  assert (Hp : plain_digit c = true) by (apply digit_is_plain; lia).
  apply plain_digit_facts in Hp as (_ & _ & _ & -> & _ & _).
  rewrite Hc. apply IH, Hs.
Qed.

Lemma count_digits_le_length (base : Z) (s : string) :
  0 <= count_digits base s <= Z.of_nat (String.length s).
Proof.
  induction s as [|c s IH]; cbn [count_digits String.length]; [lia|].
  destruct (is_underscore c); [lia|].
  destruct (digit_value c <? base); lia.
Qed.


Lemma count_digits_plain (base : Z) (s : string) :
  base <= 16 -> all_digits base s = true ->
  count_digits base s = Z.of_nat (String.length s).
Proof.
  intros Hb. unfold all_digits.
  induction s as [|c s IH]; cbn [all_chars count_digits String.length];
    [reflexivity|].
  intros H. apply andb_prop in H as [Hc Hs].
  assert (Hp : plain_digit c = true) by (apply digit_is_plain; lia).
  apply plain_digit_facts in Hp as (_ & _ & _ & -> & _ & _).
  rewrite Hc, (IH Hs). lia.
Qed.

(** A plain numeral, digits only: refused when it has more digits than the
    limit of its base allows, and read as its value otherwise. *)
Lemma py_int_digits (base : Z) (s : string) :
  base = 10 \/ base = 16 -> s <> EmptyString -> all_digits base s = true ->
  py_int base s
  = if negb (is_binary_base base)
       && (max_str_digits <? Z.of_nat (String.length s))
    then Raise (ValueError TooManyDigits)
    else Ok (numeral base 0 s).
Proof.
  intros Hb Hne Hd. destruct s as [|c s]; [congruence|].
  assert (Hc : (digit_value c <? 16) = true).
  { unfold all_digits in Hd. cbn [all_chars] in Hd.
    apply andb_prop in Hd as [Hc _]. destruct Hb; subst base; lia. }
  apply digit_is_plain, plain_digit_facts in Hc as (Hs & Hplus & Hminus & Hu & _).
  unfold py_int. cbn [skip_spaces]. rewrite Hs.
  unfold take_sign. rewrite Hplus, Hminus.
  assert (Hpre : (if base =? 16 then take_hex_prefix (String c s)
                  else String c s) = String c s).
  { destruct (base =? 16) eqn:E; [|reflexivity].
    destruct s as [|c1 r]; [reflexivity|]. cbn [take_hex_prefix].
    assert (H1 : (digit_value c1 <? 16) = true).
    { unfold all_digits in Hd. cbn [all_chars] in Hd.
      apply andb_prop in Hd as [_ Hd]. apply andb_prop in Hd as [H1 _].
      apply Z.eqb_eq in E. subst base. exact H1. }
    apply digit_is_plain, plain_digit_facts in H1 as (_ & _ & _ & _ & -> & ->).
    rewrite andb_false_r. reflexivity. }
  rewrite Hpre. cbn [starts_with_underscore]. rewrite Hu.
  rewrite scan_digits_plain by (assumption || (destruct Hb; lia)).
  rewrite count_digits_plain by (assumption || (destruct Hb; lia)).
  destruct (negb (is_binary_base base)
            && (max_str_digits <? Z.of_nat (String.length (String c s))));
    [reflexivity|].
  cbn [String.length Nat.eqb skip_spaces is_empty]. reflexivity.
Qed.

(** A plain numeral, digits only, is read as its value. *)
Lemma py_int_plain (base : Z) (s : string) :
  base = 10 \/ base = 16 ->
  base = 16 \/ Z.of_nat (String.length s) <= max_str_digits ->
  s <> EmptyString -> all_digits base s = true ->
  py_int base s = Ok (numeral base 0 s).
Proof.
  intros Hb Hlim Hne Hd. rewrite (py_int_digits base s Hb Hne Hd).
  destruct Hlim as [->|Hlim]; [reflexivity|].
  replace (max_str_digits <? Z.of_nat (String.length s)) with false
    by (symmetry; apply Z.ltb_ge; lia).
  rewrite andb_false_r. reflexivity.
Qed.


Lemma startswith_0x (s : string) :
  startswith "0x" s = true -> exists r, s = String "0" (String "x" r).
Proof.
  unfold startswith. destruct s as [|c0 [|c1 r]]; cbn [String.prefix].
  - discriminate.
  - destruct (ascii_dec "0" c0); discriminate.
  - destruct (ascii_dec "0" c0) as [<-|]; [|discriminate].
    destruct (ascii_dec "x" c1) as [<-|]; [|discriminate].
    intros _. exists r. reflexivity.
Qed.

Lemma lstrip_blank (s : string) :
  all_chars isspace s = true -> lstrip s = EmptyString.
Proof.
  induction s as [|c s IH]; cbn [all_chars lstrip]; [reflexivity|].
  intros H. apply andb_prop in H as [-> Hs]. apply IH, Hs.
Qed.

Lemma strip_blank (s : string) :
  all_chars isspace s = true -> strip s = EmptyString.
Proof.
  intros H. unfold strip. rewrite (lstrip_blank s H). reflexivity.
Qed.

(** ** The coercions on text and integers *)



Lemma data_of_int_in (v : Z) :
  0 <= v <= 255 -> data_of_int v = Ok [x00; to_byte v].
Proof.
  intros H. unfold data_of_int.
  destruct (Z.eqb_spec v 0) as [->|Hne]; [reflexivity|].
  replace (is_u8 v) with true by (symmetry; apply is_u8_spec; lia).
  cbn [negb]. rewrite py_bytes_u8 by (cbn [forallb]; unfold is_u8; lia).
  reflexivity.
Qed.

Lemma data_of_int_out (v : Z) :
  ~ 0 <= v <= 255 -> data_of_int v = Raise (ValueError OutOfRangeData).
Proof.
  intros H. unfold data_of_int.
  destruct (Z.eqb_spec v 0) as [->|Hne]; [lia|].
  replace (is_u8 v) with false by (symmetry; apply is_u8_false; lia).
  reflexivity.
Qed.



(** C7: a native integer [v] is returned unchanged when [0 <= v <= 255]
    and rejected with the u8-range [ValueError] (a [RangeError]) otherwise,
    as for 256 and -1; and for every [v] in 0..255 the text [hex(v)], its
    hexadecimal representation with the [0x] prefix, is coerced back to
    [v]. *)
Theorem parse_u8_int (v : Z) :
  (0 <= v <= 255 ->
   parse_u8 (PyInt v) = Ok v /\ parse_u8 (PyStr (py_hex v)) = Ok v)
  /\ (~ 0 <= v <= 255 ->
      parse_u8 (PyInt v) = Raise (ValueError OutOfRangeU8)
      /\ spec_class (ValueError OutOfRangeU8) = RangeError)
  /\ parse_u8 (PyInt 256) = Raise (ValueError OutOfRangeU8)
  /\ parse_u8 (PyInt (-1)) = Raise (ValueError OutOfRangeU8).
Proof.
  split; [|split; [|split; reflexivity]].
  - intros H. split; [apply range_u8_in, H|].
    pose proof (all_from_spec
                  (fun v => returns (parse_u8 (PyStr (py_hex v))) v) 256 0
                  ltac:(vm_compute; reflexivity) v ltac:(lia)) as Hx.
    cbv beta in Hx. unfold returns in Hx.
    destruct (parse_u8 (PyStr (py_hex v))) as [w|e]; [|discriminate].
    apply Z.eqb_eq in Hx. subst w. reflexivity.
  - intros H. split; [apply range_u8_out, H | reflexivity].
Qed.

Lemma parse_u8_int_witness :
  (parse_u8 (PyInt 200) = Ok 200 /\ parse_u8 (PyStr (py_hex 200)) = Ok 200)
  /\ (parse_u8 (PyInt 300) = Raise (ValueError OutOfRangeU8)
      /\ spec_class (ValueError OutOfRangeU8) = RangeError).
Proof.
  split.
  - apply (proj1 (parse_u8_int 200)). lia.
  - apply (proj1 (proj2 (parse_u8_int 300))). lia.
Defined.

(** C9: [parse_u8] rejects every [bytearray] with [TypeError], also one of
    length 1, although it accepts the [bytes] value with the same single
    byte and [data_to_2_bytes] accepts the same [bytearray] as a payload,
    treating it as the [bytes] with the same content. *)
Theorem parse_u8_bytearray (b : bytes) :
  parse_u8 (PyByteArray b) = Raise (TypeError UnsupportedU8)
  /\ spec_class (TypeError UnsupportedU8) = SpecTypeError
  /\ (forall b0, parse_u8 (PyByteArray [b0]) = Raise (TypeError UnsupportedU8)
                 /\ parse_u8 (PyBytes [b0]) = Ok (Z_of_byte b0))
  /\ data_to_2_bytes (PyByteArray b) = Ok (promoted b)
  /\ data_to_2_bytes (PyByteArray b) = data_to_2_bytes (PyBytes b).
Proof.
  split; [reflexivity|]. split; [reflexivity|].
  split; [intros b0; split; reflexivity|].
  split; [|reflexivity].
  apply (data_to_2_bytes_bytes b).
Qed.

(** C10: for the empty string, every whitespace-only string and the empty
    [bytes] value, [parse_u8] raises the invalid-literal [ValueError] of
    [int], a number-format error and no [TypeError], the empty trimmed
    text passing the all-hex-digit test and failing the base-16 reading;
    so [build_frame] raises when addr or cmd is such a text, with that very
    error when addr is, or when cmd is and addr was coerced. *)
Theorem parse_u8_blank
    (s : string) (self : CommandSender) (other data : pyval) :
  all_chars isspace s = true ->
  parse_u8 (PyStr s) = Raise (ValueError InvalidLiteral)
  /\ parse_u8 (PyStr "") = Raise (ValueError InvalidLiteral)
  /\ parse_u8 (PyBytes []) = Raise (ValueError InvalidLiteral)
  /\ spec_class (ValueError InvalidLiteral) = FormatError "not a number"
  /\ all_hex (lower (strip s)) = true
  /\ py_int 16 (lower (strip s)) = Raise (ValueError InvalidLiteral)
  /\ build_frame self (PyStr s) other data = Raise (ValueError InvalidLiteral)
  /\ (exists e, build_frame self other (PyStr s) data = Raise e)
  /\ (forall a, parse_u8 other = Ok a ->
                build_frame self other (PyStr s) data
                = Raise (ValueError InvalidLiteral)).
Proof.
  intros H.
  assert (Hs : parse_u8 (PyStr s) = Raise (ValueError InvalidLiteral)).
  { cbn [parse_u8]. unfold parse_u8_str. rewrite (strip_blank s H).
    reflexivity. }
  split; [exact Hs|]. split; [reflexivity|]. split; [reflexivity|].
  split; [reflexivity|].
  rewrite (strip_blank s H).
  split; [reflexivity|]. split; [reflexivity|].
  unfold build_frame. rewrite Hs.
  split; [reflexivity|]. split.
  - destruct (parse_u8 other) as [a|e]; cbn [bind]; eexists; reflexivity.
  - intros a ->. reflexivity.
Qed.

Lemma parse_u8_blank_witness :
  parse_u8 (PyStr "  ") = Raise (ValueError InvalidLiteral)
  /\ build_frame default_sender (PyInt 1) (PyStr "  ") PyNone
     = Raise (ValueError InvalidLiteral).
Proof.
  pose proof (parse_u8_blank "  " default_sender (PyInt 1) PyNone eq_refl)
    as (H1 & _ & _ & _ & _ & _ & _ & _ & H2).
  split; [exact H1 | exact (H2 1 eq_refl)].
Defined.

(** * Further properties of the module *)

(** ** The checksum as an error-detecting code *)

(** Running the register over its own low and high byte clears it. *)
Lemma crc_byte_residue (s : Z) :
  u16 s -> crc_byte (crc_byte s (to_byte (s mod 256))) (to_byte (s / 256)) = 0.
Proof.
  intros Hs.
  assert (H : all_from (Z.to_nat 65536) 0
                (fun s => crc_byte (crc_byte s (to_byte (s mod 256)))
                            (to_byte (s / 256)) =? 0) = true)
    by (vm_compute; reflexivity).
  pose proof (all_from_spec _ _ _ H s) as Hx. unfold u16 in Hs.
  rewrite Z2Nat.id in Hx by lia. specialize (Hx ltac:(lia)). cbv beta in Hx.
  apply Z.eqb_eq, Hx.
Qed.

Lemma crc16_modbus_self_check (data : bytes) :
  crc16_modbus (data ++ [to_byte (crc16_modbus data mod 256);
                         to_byte (crc16_modbus data / 256)]) = 0.
Proof.
  rewrite !crc16_modbus_fold, fold_left_app. cbn [fold_left].
  apply crc_byte_residue, fold_crc_u16, u16_init.
Qed.

Lemma crc_byte_inj_byte (s : Z) (b b' : byte) :
  u16 s -> crc_byte s b = crc_byte s b' -> b = b'.
Proof.
  intros Hs H. unfold crc_byte in H.
  apply iter_crc_bit_inj in H;
    try (apply lxor_u16; [assumption | apply Z_of_byte_range]).
  assert (E : Z_of_byte b = Z_of_byte b').
  { rewrite <- (Z.lxor_0_l (Z_of_byte b)), <- (Z.lxor_0_l (Z_of_byte b')),
            <- (Z.lxor_nilpotent s), !Z.lxor_assoc, H. reflexivity. }
  rewrite <- (to_byte_of_byte b), <- (to_byte_of_byte b'), E. reflexivity.
Qed.

(** X1: appending to any data the low and then the high byte of its
    checksum gives a sequence whose checksum is 0. *)
Theorem crc16_modbus_residue (data : bytes) :
  crc16_modbus (data ++ [to_byte (crc16_modbus data mod 256);
                         to_byte (crc16_modbus data / 256)]) = 0.
Proof.
  apply crc16_modbus_self_check.
Qed.

Lemma crc16_modbus_byte_change (pre post : bytes) (b b' : byte) :
  b <> b' ->
  crc16_modbus (pre ++ b :: post) <> crc16_modbus (pre ++ b' :: post).
Proof.
  intros Hne. rewrite !crc16_modbus_fold, !fold_left_app. cbn [fold_left].
  intros E.
  pose proof (fold_crc_u16 pre 0xFFFF u16_init) as Hs.
  apply fold_crc_inj in E; try (apply crc_byte_u16; exact Hs).
  apply Hne. eapply crc_byte_inj_byte; eassumption.
Qed.

(** X2: the checksum detects every change of a single byte: two sequences
    that differ in exactly one position have different checksums. *)
Theorem crc16_modbus_detects_byte_change (pre post : bytes) (b b' : byte) :
  b <> b' ->
  crc16_modbus (pre ++ b :: post) <> crc16_modbus (pre ++ b' :: post).
Proof.
  apply crc16_modbus_byte_change.
Qed.

Lemma crc16_modbus_detects_byte_change_witness :
  crc16_modbus ([x04; x01] ++ x02 :: [x00; x00])
  <> crc16_modbus ([x04; x01] ++ x03 :: [x00; x00]).
Proof.
  apply (crc16_modbus_detects_byte_change [x04; x01] [x00; x00] x02 x03).
  discriminate.
Defined.

(** X3: the checksum of a sequence never equals the checksum of that
    sequence with one more byte in front, so a lost or an added leading
    byte shows. *)
Theorem crc16_modbus_detects_leading_byte (b : byte) (data : bytes) :
  crc16_modbus (b :: data) <> crc16_modbus data.
Proof.
  apply crc16_modbus_cons_neq.
Qed.

(** ** Frames *)

Lemma to_byte_inj (x y : Z) :
  0 <= x <= 255 -> 0 <= y <= 255 -> to_byte x = to_byte y -> x = y.
Proof.
  intros Hx Hy E.
  rewrite <- (Z_of_to_byte_u8 x Hx), <- (Z_of_to_byte_u8 y Hy), E.
  reflexivity.
Qed.

Lemma frame_of_crc_zero (s a c : Z) (p : bytes) :
  crc16_modbus (frame_of s a c p) = 0.
Proof.
  unfold frame_of. cbv zeta. apply crc16_modbus_self_check.
Qed.

(** X4: the checksum of every frame that [build_frame] returns, taken over
    the whole frame with its two trailing bytes, is 0. *)
Theorem build_frame_crc_zero
    (stx_arg : Z) (addr cmd data : pyval) (frame : bytes) :
  build_frame (new_sender stx_arg) addr cmd data = Ok frame ->
  crc16_modbus frame = 0.
Proof.
  intros H.
  apply build_frame_ok_inv in H as (a & c & p & _ & _ & _ & _ & _ & _ & ->).
  apply frame_of_crc_zero.
Qed.

Lemma build_frame_crc_zero_witness :
  crc16_modbus [xa5; x04; x01; x02; x00; x00; x49; x12] = 0.
Proof.
  apply (build_frame_crc_zero 0xA5 (PyInt 1) (PyInt 2) (PyInt 0)).
  vm_compute. reflexivity.
Defined.

(** X5: a returned frame has 6 bytes more than the coerced payload, hence
    between 6 and 259 bytes, and its LEN byte is its length less 4. *)
Theorem build_frame_length
    (stx_arg : Z) (addr cmd data : pyval) (frame : bytes) :
  build_frame (new_sender stx_arg) addr cmd data = Ok frame ->
  (exists p, data_to_2_bytes data = Ok p
             /\ List.length frame = (6 + List.length p)%nat)
  /\ (6 <= List.length frame <= 259)%nat
  /\ byte_at 1 frame = Z.of_nat (List.length frame) - 4.
Proof.
  intros H.
  apply build_frame_ok_inv in H as (a & c & p & _ & _ & Hp & _ & _ & Hl & ->).
  rewrite frame_of_length.
  split; [exists p; split; [exact Hp | reflexivity]|].
  split; [lia|].
  unfold byte_at, frame_of, frame_head. cbn [app nth].
  rewrite Z_of_to_byte_u8 by lia. lia.
Qed.

Lemma build_frame_length_witness :
  (exists p, data_to_2_bytes (PyInt 0) = Ok p
             /\ List.length [xa5; x04; x01; x02; x00; x00; x49; x12]
                = (6 + List.length p)%nat)
  /\ (6 <= List.length [xa5; x04; x01; x02; x00; x00; x49; x12] <= 259)%nat
  /\ byte_at 1 [xa5; x04; x01; x02; x00; x00; x49; x12]
     = Z.of_nat (List.length [xa5; x04; x01; x02; x00; x00; x49; x12]) - 4.
Proof.
  apply (build_frame_length 0xA5 (PyInt 1) (PyInt 2) (PyInt 0)).
  vm_compute. reflexivity.
Defined.

Lemma frame_of_shape (s a c : Z) (p : bytes) :
  exists lo hi,
    frame_of s a c p
    = to_byte s :: to_byte (2 + Z.of_nat (List.length p)) :: to_byte a
        :: to_byte c :: (p ++ [lo]) ++ [hi].
Proof.
  do 2 eexists. unfold frame_of, frame_head. cbv zeta. cbn [app].
  rewrite <- app_assoc. reflexivity.
Qed.

Lemma frame_of_inj (s a c a' c' : Z) (p p' : bytes) :
  0 <= a <= 255 -> 0 <= c <= 255 -> 0 <= a' <= 255 -> 0 <= c' <= 255 ->
  frame_of s a c p = frame_of s a' c' p' -> a = a' /\ c = c' /\ p = p'.
Proof.
  intros Ha Hc Ha' Hc' E.
  destruct (frame_of_shape s a c p) as (lo & hi & F).
  destruct (frame_of_shape s a' c' p') as (lo' & hi' & F').
  rewrite F, F' in E. clear F F'.
  generalize dependent (to_byte (2 + Z.of_nat (List.length p))).
  generalize dependent (to_byte (2 + Z.of_nat (List.length p'))).
  intros l' l E. injection E as _ Ea Ec Ep.
  apply app_inj_tail_iff in Ep as [Ep _]. apply app_inj_tail_iff in Ep as [Ep _].
  repeat split; [apply to_byte_inj; assumption.. | exact Ep].
Qed.

(** X6: the frame determines what was sent: when one sender builds the
    same frame from two sets of inputs, the coerced addr, cmd and payload
    of the two are the same. *)
Theorem build_frame_injective
    (stx_arg : Z) (addr cmd data addr' cmd' data' : pyval) (frame : bytes) :
  build_frame (new_sender stx_arg) addr cmd data = Ok frame ->
  build_frame (new_sender stx_arg) addr' cmd' data' = Ok frame ->
  parse_u8 addr = parse_u8 addr' /\ parse_u8 cmd = parse_u8 cmd'
  /\ data_to_2_bytes data = data_to_2_bytes data'.
Proof.
  intros H H'.
  apply build_frame_ok_inv in H as (a & c & p & Ha & Hc & Hp & Ra & Rc & _ & ->).
  apply build_frame_ok_inv in H'
    as (a' & c' & p' & Ha' & Hc' & Hp' & Ra' & Rc' & _ & E).
  apply frame_of_inj in E as (-> & -> & ->); try assumption.
  rewrite Ha, Ha', Hc, Hc', Hp, Hp'. repeat split; reflexivity.
Qed.

Lemma build_frame_injective_witness :
  parse_u8 (PyInt 1) = parse_u8 (PyStr "0x01")
  /\ parse_u8 (PyInt 16) = parse_u8 (PyStr "10")
  /\ data_to_2_bytes (PyInt 25) = data_to_2_bytes (PyStr "25").
Proof.
  apply (build_frame_injective 0xA5 (PyInt 1) (PyInt 16) (PyInt 25)
           (PyStr "0x01") (PyStr "10") (PyStr "25")
           [xa5; x04; x01; x10; x00; x19; x28; xdd]);
    vm_compute; reflexivity.
Defined.

(** X7: [build_frame] succeeds exactly when the three coercions succeed
    and the payload has at most 253 bytes; and it raises the first error
    in the order addr, cmd, data, frame length, whatever the later
    arguments are. *)
Theorem build_frame_outcome (stx_arg : Z) (addr cmd data : pyval) :
  ((exists frame, build_frame (new_sender stx_arg) addr cmd data = Ok frame)
   <-> (exists a c p, parse_u8 addr = Ok a /\ parse_u8 cmd = Ok c
                      /\ data_to_2_bytes data = Ok p
                      /\ (List.length p <= 253)%nat))
  /\ (forall e, parse_u8 addr = Raise e ->
                build_frame (new_sender stx_arg) addr cmd data = Raise e)
  /\ (forall a e, parse_u8 addr = Ok a -> parse_u8 cmd = Raise e ->
                  build_frame (new_sender stx_arg) addr cmd data = Raise e)
  /\ (forall a c e, parse_u8 addr = Ok a -> parse_u8 cmd = Ok c ->
                    data_to_2_bytes data = Raise e ->
                    build_frame (new_sender stx_arg) addr cmd data = Raise e).
Proof.
  rewrite build_frame_eq. split; [split|].
  - intros [frame H].
    apply bind_ok in H as (a & Ha & H). apply bind_ok in H as (c & Hc & H).
    apply bind_ok in H as (p & Hp & H).
    destruct (Nat.leb_spec (List.length p) 253) as [Hl|Hl]; [|discriminate].
    exists a, c, p. repeat split; assumption.
  - intros (a & c & p & -> & -> & -> & Hl). cbn [bind].
    replace (List.length p <=? 253)%nat with true
      by (symmetry; apply Nat.leb_le, Hl).
    eexists. reflexivity.
  - split; [|split].
    + intros e ->. reflexivity.
    + intros a e -> ->. reflexivity.
    + intros a c e -> -> ->. reflexivity.
Qed.

Lemma build_frame_outcome_witness :
  (exists a c p, parse_u8 (PyInt 1) = Ok a /\ parse_u8 (PyInt 2) = Ok c
                 /\ data_to_2_bytes PyNone = Ok p
                 /\ (List.length p <= 253)%nat)
  /\ build_frame (new_sender 0xA5) (PyInt 256) PyNone PyOther
     = Raise (ValueError OutOfRangeU8)
  /\ build_frame (new_sender 0xA5) (PyInt 1) PyNone PyOther
     = Raise (TypeError UnsupportedU8)
  /\ build_frame (new_sender 0xA5) (PyInt 1) (PyInt 2) PyOther
     = Raise (TypeError UnsupportedData).
Proof.
  split; [|split; [|split]].
  - apply (proj1 (proj1 (build_frame_outcome 0xA5 (PyInt 1) (PyInt 2) PyNone))).
    eexists. vm_compute. reflexivity.
  - apply (proj1 (proj2 (build_frame_outcome 0xA5 (PyInt 256) PyNone PyOther))).
    reflexivity.
  - apply (proj1 (proj2 (proj2
             (build_frame_outcome 0xA5 (PyInt 1) PyNone PyOther))) 1);
      reflexivity.
  - apply (proj2 (proj2 (proj2
             (build_frame_outcome 0xA5 (PyInt 1) (PyInt 2) PyOther))) 1 2);
      reflexivity.
Defined.

(** X8: for three native integers, the case of the module's example,
    [build_frame] returns the 8-byte frame [STX 04 addr cmd 00 data] and
    its two checksum bytes when all three are in 0..255, and raises a
    [ValueError] otherwise. *)
Theorem build_frame_ints (stx_arg a c d : Z) :
  (0 <= a <= 255 -> 0 <= c <= 255 -> 0 <= d <= 255 ->
   exists lo hi,
     build_frame (new_sender stx_arg) (PyInt a) (PyInt c) (PyInt d)
     = Ok [to_byte stx_arg; x04; to_byte a; to_byte c; x00; to_byte d; lo; hi])
  /\ (~ (0 <= a <= 255 /\ 0 <= c <= 255 /\ 0 <= d <= 255) ->
      exists why,
        build_frame (new_sender stx_arg) (PyInt a) (PyInt c) (PyInt d)
        = Raise (ValueError why)).
Proof.
  rewrite build_frame_eq. cbn [parse_u8 data_to_2_bytes]. split.
  - intros Ha Hc Hd.
    rewrite !range_u8_in, data_of_int_in by assumption. cbn [bind].
    do 2 eexists. unfold frame_of, frame_head. cbv zeta.
    cbn [List.length Nat.leb app].
    replace (to_byte (stx_arg mod 256)) with (to_byte stx_arg)
      by (unfold to_byte; rewrite Z.mod_mod by lia; reflexivity).
    reflexivity.
  - intros H.
    destruct (Z_le_dec 0 a), (Z_le_dec a 255);
      try (rewrite (range_u8_out a) by lia; eexists; reflexivity).
    rewrite (range_u8_in a) by lia. cbn [bind].
    destruct (Z_le_dec 0 c), (Z_le_dec c 255);
      try (rewrite (range_u8_out c) by lia; eexists; reflexivity).
    rewrite (range_u8_in c) by lia. cbn [bind].
    rewrite (data_of_int_out d) by lia. eexists. reflexivity.
Qed.

Lemma build_frame_ints_witness :
  (exists lo hi,
      build_frame (new_sender 0xA5) (PyInt 1) (PyInt 2) (PyInt 25)
      = Ok [to_byte 0xA5; x04; to_byte 1; to_byte 2; x00; to_byte 25; lo; hi])
  /\ (exists why,
         build_frame (new_sender 0xA5) (PyInt 1) (PyInt 2) (PyInt 256)
         = Raise (ValueError why)).
Proof.
  split.
  - apply (proj1 (build_frame_ints 0xA5 1 2 25)); lia.
  - apply (proj2 (build_frame_ints 0xA5 1 2 256)). lia.
Defined.

Lemma py_bytes_length (l : list Z) (b : bytes) :
  py_bytes l = Ok b -> List.length b = List.length l.
Proof.
  revert b. induction l as [|z l IH]; intros b; cbn [py_bytes].
  - intros E. injection E as <-. reflexivity.
  - destruct (is_u8 z); [|discriminate]. intros E.
    apply bind_ok in E as (bs & Hbs & E). injection E as <-.
    cbn [List.length]. rewrite (IH bs Hbs). reflexivity.
Qed.

Lemma data_of_int_length (v : Z) (p : bytes) :
  data_of_int v = Ok p -> List.length p = 2%nat.
Proof.
  unfold data_of_int. destruct (v =? 0).
  - apply py_bytes_length.
  - destruct (negb (is_u8 v)); [discriminate | apply py_bytes_length].
Qed.

(** X9: a scalar payload always becomes exactly 2 bytes: an integer, or a
    text that is not blank, gives 2 bytes when it is accepted; [None] and
    blank text give none; a byte sequence keeps its length, except that a
    single byte becomes 2.  So no payload of exactly 1 byte is ever
    produced. *)
Theorem data_to_2_bytes_length (data : pyval) (p : bytes) :
  data_to_2_bytes data = Ok p ->
  List.length p <> 1%nat
  /\ match data with
     | PyInt _ => List.length p = 2%nat
     | PyStr s =>
         List.length p = if is_empty (strip s) then 0%nat else 2%nat
     | PyBytes b | PyByteArray b =>
         List.length p
         = if (List.length b =? 1)%nat then 2%nat else List.length b
     | PyNone => List.length p = 0%nat
     | PyOther => False
     end.
Proof.
  intros H.
  assert (G : match data with
              | PyInt _ => List.length p = 2%nat
              | PyStr s =>
                  List.length p = if is_empty (strip s) then 0%nat else 2%nat
              | PyBytes b | PyByteArray b =>
                  List.length p
                  = if (List.length b =? 1)%nat then 2%nat else List.length b
              | PyNone => List.length p = 0%nat
              | PyOther => False
              end).
  { destruct data as [z|b|b|s| |]; cbn [data_to_2_bytes] in H.
    - apply data_of_int_length in H. exact H.
    - change (data_of_bytes b) with (data_to_2_bytes (PyBytes b)) in H.
      rewrite data_to_2_bytes_bytes in H. injection H as <-.
      destruct b as [|b0 [|b1 rest]]; reflexivity.
    - change (data_of_bytes b) with (data_to_2_bytes (PyBytes b)) in H.
      rewrite data_to_2_bytes_bytes in H. injection H as <-.
      destruct b as [|b0 [|b1 rest]]; reflexivity.
    - unfold data_of_str in H. destruct (is_empty (strip s)).
      + injection H as <-. reflexivity.
      + apply bind_ok in H as (n & _ & H).
        apply data_of_int_length in H. exact H.
    - injection H as <-. reflexivity.
    - discriminate. }
  split; [|exact G].
  destruct data as [z|b|b|s| |]; try lia.
  - destruct (Nat.eqb_spec (List.length b) 1); lia.
  - destruct (Nat.eqb_spec (List.length b) 1); lia.
  - destruct (is_empty (strip s)); lia.
Qed.

Lemma data_to_2_bytes_length_witness :
  List.length [x00; x07] <> 1%nat
  /\ List.length [x00; x07]
     = if (List.length [x07] =? 1)%nat then 2%nat else List.length [x07].
Proof.
  apply (data_to_2_bytes_length (PyBytes [x07]) [x00; x07]). reflexivity.
Defined.

(** X10: [send] writes to the port exactly the frame it returns: after a
    successful call the port holds its earlier bytes followed by the
    returned frame, which is the one [build_frame] gives; after a failed
    call it holds its earlier bytes and nothing more.  With [data] left to
    its default the frame has 6 bytes and LEN 2. *)
Theorem send_writes_returned_frame
    (stx_arg : Z) (w : wire) (addr cmd data : pyval) :
  (forall frame w',
      send (new_sender stx_arg) w addr cmd data = (Ok frame, w') ->
      build_frame (new_sender stx_arg) addr cmd data = Ok frame
      /\ w' = w ++ frame
      /\ (List.length w' = List.length w + List.length frame)%nat)
  /\ (forall e w',
         send (new_sender stx_arg) w addr cmd data = (Raise e, w') ->
         build_frame (new_sender stx_arg) addr cmd data = Raise e /\ w' = w)
  /\ (forall frame w',
         send (new_sender stx_arg) w addr cmd send_default_data
         = (Ok frame, w') ->
         List.length frame = 6%nat /\ byte_at 1 frame = 2).
Proof.
  split; [|split].
  - intros frame w' H. unfold send in H.
    destruct (build_frame (new_sender stx_arg) addr cmd data) as [f|e];
      [|discriminate].
    injection H as <- <-. unfold ser_write. rewrite length_app.
    repeat split; reflexivity.
  - intros e w' H. unfold send in H.
    destruct (build_frame (new_sender stx_arg) addr cmd data) as [f|e'];
      [discriminate|].
    injection H as <- <-. split; reflexivity.
  - intros frame w' H. unfold send, send_default_data in H.
    destruct (build_frame (new_sender stx_arg) addr cmd (PyBytes []))
      as [f|e] eqn:E; [|discriminate].
    injection H as <- _.
    apply build_frame_ok_inv in E as (a & c & p & _ & _ & Hp & _ & _ & _ & ->).
    injection Hp as <-. rewrite frame_of_length. split; [reflexivity|].
    unfold byte_at, frame_of, frame_head. cbn [app nth List.length].
    reflexivity.
Qed.

Lemma send_writes_returned_frame_witness :
  (build_frame (new_sender 0xA5) (PyInt 1) (PyInt 2) PyNone
   = Ok [xa5; x02; x01; x02; x03; x79]
   /\ [xff; xa5; x02; x01; x02; x03; x79] = [xff] ++ [xa5; x02; x01; x02; x03; x79]
   /\ (List.length [xff; xa5; x02; x01; x02; x03; x79]
       = List.length [xff] + List.length [xa5; x02; x01; x02; x03; x79])%nat)
  /\ (build_frame (new_sender 0xA5) (PyInt 1) PyNone PyNone
      = Raise (TypeError UnsupportedU8) /\ [xff] = [xff])
  /\ (List.length [xa5; x02; x01; x02; x03; x79] = 6%nat
      /\ byte_at 1 [xa5; x02; x01; x02; x03; x79] = 2).
Proof.
  split; [|split].
  - apply (proj1 (send_writes_returned_frame 0xA5 [xff] (PyInt 1) (PyInt 2)
                    PyNone)).
    vm_compute. reflexivity.
  - apply (proj1 (proj2 (send_writes_returned_frame 0xA5 [xff] (PyInt 1) PyNone
                           PyNone))).
    vm_compute. reflexivity.
  - apply (proj2 (proj2 (send_writes_returned_frame 0xA5 [xff] (PyInt 1)
                           (PyInt 2) PyNone))
             [xa5; x02; x01; x02; x03; x79]
             [xff; xa5; x02; x01; x02; x03; x79]).
    vm_compute. reflexivity.
Defined.


(** ** Trimming and case *)

Lemma lstrip_head (s : string) :
  lstrip s = EmptyString
  \/ exists c t, lstrip s = String c t /\ isspace c = false.
Proof.
  induction s as [|c s IH]; cbn [lstrip]; [left; reflexivity|].
  destruct (isspace c) eqn:E; [exact IH|]. right. exists c, s. split; auto.
Qed.

Lemma rstrip_head (c : ascii) (t : string) :
  isspace c = false -> exists r, rstrip (String c t) = String c r.
Proof.
  intros E. cbn [rstrip]. destruct (rstrip t) as [|d r].
  - rewrite E. eexists. reflexivity.
  - eexists. reflexivity.
Qed.

Lemma rstrip_idem (s : string) : rstrip (rstrip s) = rstrip s.
Proof.
  induction s as [|c s IH]; [reflexivity|]. cbn [rstrip].
  destruct (rstrip s) as [|d r] eqn:E.
  - destruct (isspace c) eqn:Ec; [reflexivity|].
    cbn [rstrip]. rewrite Ec. reflexivity.
  - change (rstrip (String c (String d r)))
      with (match rstrip (String d r) with
            | EmptyString =>
                if isspace c then EmptyString else String c EmptyString
            | String d' r' => String c (String d' r')
            end).
    rewrite IH. reflexivity.
Qed.

Lemma strip_idem (s : string) : strip (strip s) = strip s.
Proof.
  unfold strip.
  assert (H : lstrip (rstrip (lstrip s)) = rstrip (lstrip s)).
  { destruct (lstrip_head s) as [->|(c & t & -> & Ec)]; [reflexivity|].
    destruct (rstrip_head c t Ec) as [r ->]. cbn [lstrip]. rewrite Ec.
    reflexivity. }
  rewrite H. apply rstrip_idem.
Qed.

Lemma isspace_lower (c : ascii) : isspace (lower_char c) = isspace c.
Proof.
  pose proof (all_ascii
                (fun c => Bool.eqb (isspace (lower_char c)) (isspace c))
                ltac:(vm_compute; reflexivity) c) as H.
  apply Bool.eqb_prop, H.
Qed.

Lemma lower_char_idem (c : ascii) : lower_char (lower_char c) = lower_char c.
Proof.
  pose proof (all_ascii
                (fun c => Ascii.eqb (lower_char (lower_char c)) (lower_char c))
                ltac:(vm_compute; reflexivity) c) as H.
  apply Ascii.eqb_eq, H.
Qed.

Lemma lower_idem (s : string) : lower (lower s) = lower s.
Proof.
  induction s as [|c s IH]; cbn [lower]; [reflexivity|].
  rewrite lower_char_idem, IH. reflexivity.
Qed.

Lemma lstrip_lower (s : string) : lstrip (lower s) = lower (lstrip s).
Proof.
  induction s as [|c s IH]; cbn [lower lstrip]; [reflexivity|].
  rewrite isspace_lower. destruct (isspace c); [exact IH | reflexivity].
Qed.

Lemma rstrip_lower (s : string) : rstrip (lower s) = lower (rstrip s).
Proof.
  induction s as [|c s IH]; cbn [lower rstrip]; [reflexivity|].
  rewrite IH, isspace_lower.
  destruct (rstrip s) as [|d r]; cbn [lower].
  - destruct (isspace c); reflexivity.
  - reflexivity.
Qed.

Lemma strip_lower (s : string) : strip (lower s) = lower (strip s).
Proof.
  unfold strip. rewrite lstrip_lower, rstrip_lower. reflexivity.
Qed.

Lemma strip_no_space (s : string) : no_space s = true -> strip s = s.
Proof.
  unfold no_space, strip. intros H.
  assert (Hl : lstrip s = s).
  { destruct s as [|c s]; [reflexivity|]. cbn [all_chars] in H.
    apply andb_prop in H as [Hc _]. apply negb_true_iff in Hc.
    cbn [lstrip]. rewrite Hc. reflexivity. }
  rewrite Hl. clear Hl.
  induction s as [|c s IH]; [reflexivity|]. cbn [all_chars] in H.
  apply andb_prop in H as [Hc Hs]. apply negb_true_iff in Hc.
  cbn [rstrip]. rewrite (IH Hs), Hc. destruct s; reflexivity.
Qed.

(** X11: surrounding whitespace and letter case never change what
    [parse_u8] makes of a text: the text, the trimmed text and the
    lower-cased text are coerced alike. *)
Theorem parse_u8_ignores_case_and_blanks (x : string) :
  parse_u8 (PyStr (strip x)) = parse_u8 (PyStr x)
  /\ parse_u8 (PyStr (lower x)) = parse_u8 (PyStr x)
  /\ parse_u8 (PyStr (lower (strip x))) = parse_u8 (PyStr x).
Proof.
  cbn [parse_u8]. unfold parse_u8_str.
  rewrite strip_idem, !strip_lower, strip_idem, !lower_idem.
  repeat split; reflexivity.
Qed.

(** ** The two coercions on the same text *)

Lemma decimal_char_facts (c : ascii) :
  (digit_value c <? 10) = true ->
  isspace c = false /\ lower_char c = c /\ char_in c hex_alphabet = true.
Proof.
  pose proof (all_ascii
                (fun c => implb (digit_value c <? 10)
                            (negb (isspace c) && Ascii.eqb (lower_char c) c
                             && char_in c hex_alphabet))
                ltac:(vm_compute; reflexivity) c) as H.
  cbv beta in H. intros E. rewrite E in H. cbn [implb] in H.
  apply andb_prop in H as [H H3]. apply andb_prop in H as [H1 H2].
  apply negb_true_iff in H1. apply Ascii.eqb_eq in H2. auto.
Qed.

Lemma hex_char_facts (c : ascii) :
  char_in c hex_alphabet = true ->
  isspace c = false /\ lower_char c = c.
Proof.
  pose proof (all_ascii
                (fun c => implb (char_in c hex_alphabet)
                            (negb (isspace c) && Ascii.eqb (lower_char c) c))
                ltac:(vm_compute; reflexivity) c) as H.
  cbv beta in H. intros E. rewrite E in H. cbn [implb] in H.
  apply andb_prop in H as [H1 H2].
  apply negb_true_iff in H1. apply Ascii.eqb_eq in H2. auto.
Qed.

Lemma hex_text_fixed (t : string) :
  all_hex t = true ->
  strip t = t /\ lower t = t /\ startswith "0x" t = false.
Proof.
  intros H.
  assert (Hn : no_space t = true /\ lower t = t).
  { unfold all_hex, no_space in *.
    induction t as [|c t IH]; cbn [all_chars lower]; [auto|].
    cbn [all_chars] in H. apply andb_prop in H as [Hc Ht].
    destruct (IH Ht) as [I1 I2].
    destruct (hex_char_facts c Hc) as (E1 & E2).
    rewrite E1, E2, I1, I2. auto. }
  destruct Hn as [Hn Hl]. split; [apply strip_no_space, Hn|].
  split; [exact Hl|].
  destruct (startswith "0x" t) eqn:E; [|reflexivity].
  apply startswith_0x in E as [r ->].
  unfold all_hex in H. vm_compute in H. discriminate.
Qed.

Lemma decimal_text_hex (t : string) :
  all_digits 10 t = true -> all_hex t = true.
Proof.
  unfold all_digits, all_hex.
  induction t as [|c t IH]; cbn [all_chars]; [reflexivity|].
  intros H. apply andb_prop in H as [Hc Ht].
  destruct (decimal_char_facts c Hc) as (_ & _ & ->). rewrite (IH Ht).
  reflexivity.
Qed.

Lemma digit_value_nonneg (c : ascii) : 0 <= digit_value c.
Proof.
  unfold digit_value, between.
  assert (0 <= code c) by (unfold code; lia).
  destruct ((48 <=? code c) && (code c <=? 57)) eqn:E1; [lia|].
  destruct ((97 <=? code c) && (code c <=? 122)) eqn:E2; [lia|].
  destruct ((65 <=? code c) && (code c <=? 90)) eqn:E3; lia.
Qed.

Lemma numeral_nonneg (base : Z) (s : string) (acc : Z) :
  0 <= base -> 0 <= acc -> 0 <= numeral base acc s.
Proof.
  intros Hb. revert acc. induction s as [|c s IH]; intros acc Ha;
    cbn [numeral]; [exact Ha|].
  apply IH. pose proof (digit_value_nonneg c).
  pose proof (Z.mul_nonneg_nonneg acc base Ha Hb). lia.
Qed.

(** Decimal digits read in base 16 give at least what they give in base
    10, and more once the accumulators differ. *)
Lemma numeral_bases (s : string) (a b : Z) :
  all_digits 10 s = true -> 0 <= a <= b ->
  numeral 10 a s <= numeral 16 b s
  /\ (a < b -> numeral 10 a s < numeral 16 b s).
Proof.
  unfold all_digits. revert a b.
  induction s as [|c s IH]; intros a b Hd Hab; cbn [numeral]; [lia|].
  cbn [all_chars] in Hd. apply andb_prop in Hd as [Hc Hs].
  pose proof (digit_value_nonneg c) as H0.
  destruct (IH (a * 10 + digit_value c) (b * 16 + digit_value c) Hs
              ltac:(lia)) as [Hle Hlt].
  split; [exact Hle|]. intros Hab'. apply Hlt. lia.
Qed.

Lemma numeral_decimal_lt_hex (s : string) (a : Z) :
  all_digits 10 s = true -> 0 <= a < 10 -> 10 <= numeral 10 a s ->
  numeral 10 a s < numeral 16 a s.
Proof.
  unfold all_digits. revert a.
  induction s as [|c s IH]; intros a Hd Ha Hbig; cbn [numeral] in *; [lia|].
  cbn [all_chars] in Hd. apply andb_prop in Hd as [Hc Hs].
  pose proof (digit_value_nonneg c) as H0.
  destruct (Z.eq_dec a 0) as [->|Hne].
  - cbn [Z.mul Z.add] in *. apply IH; [exact Hs | lia | exact Hbig].
  - apply (numeral_bases s (a * 10 + digit_value c) (a * 16 + digit_value c)
             Hs ltac:(lia)).
    lia.
Qed.

(** X12: a non-empty text of decimal digits, within the interpreter's
    limit of 4300 digits, is read in base 16 by [parse_u8] and in base 10
    by [data_to_2_bytes]; the base-16 value is never the smaller one, and
    it is strictly larger as soon as the decimal value is 10 or more: the
    text ["10"] is 16 as addr or cmd and 10 as data, while ["7"] is 7 for
    both. *)
Theorem digits_hex_as_u8_decimal_as_data (t : string) :
  t <> EmptyString -> all_digits 10 t = true ->
  Z.of_nat (String.length t) <= max_str_digits ->
  parse_u8 (PyStr t) = range_u8 (numeral 16 0 t)
  /\ data_to_2_bytes (PyStr t) = data_to_2_bytes (PyInt (numeral 10 0 t))
  /\ numeral 10 0 t <= numeral 16 0 t
  /\ (10 <= numeral 10 0 t -> numeral 10 0 t < numeral 16 0 t).
Proof.
  intros Hne Hd Hlim.
  pose proof (decimal_text_hex t Hd) as Hh.
  destruct (hex_text_fixed t Hh) as (Hs & Hl & Hp).
  split; [|split; [|split]].
  - cbn [parse_u8]. unfold parse_u8_str. rewrite Hs, Hl, Hp, Hh.
    rewrite (py_int_plain 16 t (or_intror eq_refl) (or_introl eq_refl) Hne
               (all_hex_digits t Hh)).
    reflexivity.
  - cbn [data_to_2_bytes]. unfold data_of_str. rewrite Hs, Hl, Hp.
    rewrite (py_int_plain 10 t (or_introl eq_refl) (or_intror Hlim) Hne Hd).
    destruct t as [|c t]; [congruence | reflexivity].
  - apply (numeral_bases t 0 0 Hd). lia.
  - apply numeral_decimal_lt_hex; [exact Hd | lia].
Qed.

Lemma digits_hex_as_u8_decimal_as_data_witness :
  parse_u8 (PyStr "25") = range_u8 (numeral 16 0 "25")
  /\ data_to_2_bytes (PyStr "25") = data_to_2_bytes (PyInt (numeral 10 0 "25"))
  /\ numeral 10 0 "25" <= numeral 16 0 "25"
  /\ (10 <= numeral 10 0 "25" -> numeral 10 0 "25" < numeral 16 0 "25").
Proof.
  apply (digits_hex_as_u8_decimal_as_data "25");
    [discriminate | reflexivity | vm_compute; discriminate].
Defined.

Lemma hex_letter_facts (c : ascii) :
  char_in c hex_alphabet = true -> (digit_value c <? 10) = false ->
  is_underscore c = false /\ int_space c = false.
Proof.
  pose proof (all_ascii
                (fun c => implb (char_in c hex_alphabet)
                            (negb (is_underscore c) && negb (int_space c)))
                ltac:(vm_compute; reflexivity) c) as H.
  cbv beta in H. intros E _. rewrite E in H. cbn [implb] in H.
  apply andb_prop in H as [H1 H2]. apply negb_true_iff in H1, H2. auto.
Qed.

(** Reading base 10, the scan of a hexadecimal text with a letter stops at
    its first letter. *)
Lemma scan_decimal_stops (t : string) (acc : Z) :
  all_hex t = true -> all_digits 10 t = false ->
  exists v c r,
    scan_digits 10 t acc false = Some (v, String c r) /\ int_space c = false.
Proof.
  unfold all_hex, all_digits. revert acc.
  induction t as [|c t IH]; intros acc Hh Hd; cbn [all_chars] in *;
    [discriminate|].
  apply andb_prop in Hh as [Hc Ht]. cbn [scan_digits].
  destruct (digit_value c <? 10) eqn:E.
  - pose proof (hex_char_is_digit c Hc) as H16.
    apply digit_is_plain, plain_digit_facts in H16 as (_ & _ & _ & -> & _).
    apply IH; assumption.
  - destruct (hex_letter_facts c Hc E) as [-> Hsp].
    exists acc, c, t. split; [reflexivity | exact Hsp].
Qed.

Lemma py_int_decimal_rejects_hex (t : string) :
  all_hex t = true -> all_digits 10 t = false ->
  py_int 10 t
  = Raise (ValueError (if max_str_digits <? count_digits 10 t
                       then TooManyDigits else InvalidLiteral)).
Proof.
  intros Hh Hd. destruct t as [|c t]; [discriminate|].
  assert (Hc : char_in c hex_alphabet = true).
  { unfold all_hex in Hh. cbn [all_chars] in Hh.
    apply andb_prop in Hh as [Hc _]. exact Hc. }
  apply hex_char_is_digit, digit_is_plain, plain_digit_facts in Hc
    as (Hs & Hplus & Hminus & Hu & _).
  unfold py_int. cbn [skip_spaces]. rewrite Hs.
  unfold take_sign. rewrite Hplus, Hminus.
  change (10 =? 16) with false. cbv iota.
  cbn [starts_with_underscore]. rewrite Hu.
  destruct (scan_decimal_stops (String c t) 0 Hh Hd) as (v & d & r & -> & Hd').
  change (negb (is_binary_base 10)) with true. cbn [andb].
  destruct (max_str_digits <? count_digits 10 (String c t)); [reflexivity|].
  cbn [skip_spaces]. rewrite Hd'. cbn [is_empty].
  destruct (String.length (String d r) =? String.length (String c t))%nat;
    reflexivity.
Qed.

(** X13: a text of lower-case hexadecimal digits that has a letter in it
    and no prefix, such as ["ff"] or ["1a"], is read in base 16 by
    [parse_u8], which returns its value when that is at most 255 and
    raises the range [ValueError] when it is more; [data_to_2_bytes]
    always rejects such a text with a [ValueError], the invalid-literal one
    when the text is within the limit of 4300 digits: as data, hexadecimal
    needs the [0x] prefix. *)
Theorem bare_hex_read_as_u8_rejected_as_data (t : string) :
  all_hex t = true -> all_digits 10 t = false ->
  parse_u8 (PyStr t) = range_u8 (numeral 16 0 t)
  /\ (numeral 16 0 t <= 255 -> parse_u8 (PyStr t) = Ok (numeral 16 0 t))
  /\ (255 < numeral 16 0 t ->
      parse_u8 (PyStr t) = Raise (ValueError OutOfRangeU8))
  /\ (exists why, data_to_2_bytes (PyStr t) = Raise (ValueError why))
  /\ (Z.of_nat (String.length t) <= max_str_digits ->
      data_to_2_bytes (PyStr t) = Raise (ValueError InvalidLiteral)).
Proof.
  intros Hh Hd.
  destruct (hex_text_fixed t Hh) as (Hs & Hl & Hp).
  assert (Hne : t <> EmptyString) by (intros ->; discriminate).
  assert (Hu8 : parse_u8 (PyStr t) = range_u8 (numeral 16 0 t)).
  { cbn [parse_u8]. unfold parse_u8_str. rewrite Hs, Hl, Hp, Hh.
    rewrite (py_int_plain 16 t (or_intror eq_refl) (or_introl eq_refl) Hne
               (all_hex_digits t Hh)).
    reflexivity. }
  assert (Hdata : data_to_2_bytes (PyStr t)
                  = Raise (ValueError
                             (if max_str_digits <? count_digits 10 t
                              then TooManyDigits else InvalidLiteral))).
  { cbn [data_to_2_bytes]. unfold data_of_str. rewrite Hs, Hl, Hp.
    rewrite (py_int_decimal_rejects_hex t Hh Hd).
    destruct t as [|c t]; [congruence | reflexivity]. }
  pose proof (numeral_nonneg 16 t 0 ltac:(lia) ltac:(lia)) as H0.
  split; [exact Hu8|]. split; [|split; [|split]].
  - intros H. rewrite Hu8. apply range_u8_in. lia.
  - intros H. rewrite Hu8. apply range_u8_out. lia.
  - eexists. exact Hdata.
  - intros Hlim. rewrite Hdata.
    pose proof (count_digits_le_length 10 t).
    replace (max_str_digits <? count_digits 10 t) with false
      by (symmetry; apply Z.ltb_ge; lia).
    reflexivity.
Qed.

Lemma bare_hex_read_as_u8_rejected_as_data_witness :
  parse_u8 (PyStr "1a") = Ok (numeral 16 0 "1a")
  /\ parse_u8 (PyStr "fff") = Raise (ValueError OutOfRangeU8)
  /\ data_to_2_bytes (PyStr "1a") = Raise (ValueError InvalidLiteral).
Proof.
  split; [|split].
  - apply (proj1 (proj2 (bare_hex_read_as_u8_rejected_as_data "1a"
                           eq_refl eq_refl))).
    vm_compute. discriminate.
  - apply (proj1 (proj2 (proj2 (bare_hex_read_as_u8_rejected_as_data "fff"
                                  eq_refl eq_refl)))).
    vm_compute. reflexivity.
  - apply (proj2 (proj2 (proj2 (proj2
             (bare_hex_read_as_u8_rejected_as_data "1a" eq_refl eq_refl))))).
    vm_compute. discriminate.
Defined.

(** ** Bytes as text *)

Lemma decode_ascii (t : string) :
  is_ascii_text t = true -> decode (list_byte_of_string t) = Ok t.
Proof.
  unfold is_ascii_text.
  induction t as [|c t IH]; cbn [all_chars]; [reflexivity|].
  intros H. apply andb_prop in H as [Hc Ht].
  change (list_byte_of_string (String c t))
    with (byte_of_ascii c :: list_byte_of_string t).
  cbn [decode].
  assert (E : Z_of_byte (byte_of_ascii c) = code c).
  { unfold Z_of_byte, code. f_equal. apply Byte.to_of_N. symmetry.
    apply byte_of_ascii_via_N. }
  rewrite E, Hc, (IH Ht). cbn [bind]. rewrite ascii_of_byte_of_ascii.
  reflexivity.
Qed.

(** X14: [bytes] holding ASCII text, unless they are a single byte, are
    coerced exactly as the [str] with the same characters: [b"0x01"] as
    ["0x01"], [b""] as [""]. *)
Theorem parse_u8_bytes_as_text (t : string) :
  is_ascii_text t = true -> String.length t <> 1%nat ->
  parse_u8 (PyBytes (list_byte_of_string t)) = parse_u8 (PyStr t).
Proof.
  intros Ha Hl. cbn [parse_u8].
  destruct t as [|c0 [|c1 t']]; [reflexivity | cbn in Hl; congruence |].
  change (list_byte_of_string (String c0 (String c1 t')))
    with (byte_of_ascii c0 :: byte_of_ascii c1 :: list_byte_of_string t').
  change (byte_of_ascii c0 :: byte_of_ascii c1 :: list_byte_of_string t')
    with (list_byte_of_string (String c0 (String c1 t'))).
  rewrite (decode_ascii _ Ha). cbn [bind].
  unfold parse_u8_str. rewrite strip_idem. reflexivity.
Qed.

Lemma parse_u8_bytes_as_text_witness :
  parse_u8 (PyBytes (list_byte_of_string "0x1F")) = parse_u8 (PyStr "0x1F").
Proof.
  apply (parse_u8_bytes_as_text "0x1F"); [reflexivity | discriminate].
Defined.

(** X15: a single character means different numbers as [str] and as
    [bytes]: for every hexadecimal digit, in either case, the
    one-character [str] is coerced to the digit's value, the one-byte
    [bytes] to the character's code, and the two differ ([ "7" ] is 7,
    [ b"7" ] is 55). *)
Theorem parse_u8_one_char_str_vs_bytes (c : ascii) :
  (digit_value c <? 16) = true ->
  parse_u8 (PyStr (String c EmptyString)) = Ok (digit_value c)
  /\ parse_u8 (PyBytes [byte_of_ascii c]) = Ok (code c)
  /\ digit_value c <> code c.
Proof.
  intros H.
  pose proof (all_ascii
                (fun c => implb (digit_value c <? 16)
                            (returns (parse_u8 (PyStr (String c EmptyString)))
                               (digit_value c)
                             && returns (parse_u8 (PyBytes [byte_of_ascii c]))
                                  (code c)
                             && negb (digit_value c =? code c)))
                ltac:(vm_compute; reflexivity) c) as G.
  cbv beta in G. rewrite H in G. cbn [implb] in G.
  apply andb_prop in G as [G G3]. apply andb_prop in G as [G1 G2].
  unfold returns in G1, G2.
  destruct (parse_u8 (PyStr (String c EmptyString))) as [v1|]; [|discriminate].
  destruct (parse_u8 (PyBytes [byte_of_ascii c])) as [v2|]; [|discriminate].
  apply Z.eqb_eq in G1, G2. subst v1 v2.
  apply negb_true_iff, Z.eqb_neq in G3. auto.
Qed.

Lemma parse_u8_one_char_str_vs_bytes_witness :
  parse_u8 (PyStr "7") = Ok (digit_value "7")
  /\ parse_u8 (PyBytes [byte_of_ascii "7"]) = Ok (code "7")
  /\ digit_value "7" <> code "7".
Proof.
  apply (parse_u8_one_char_str_vs_bytes "7"). reflexivity.
Defined.

(** X16: the ways the docstring writes a value are all accepted: for every
    [v] in 0..255, its two hexadecimal digits in either case, bare or
    after [0x] or [0X], are coerced to [v] both as [str] and as [bytes],
    and so is the single raw byte of value [v]. *)
Theorem parse_u8_docstring_forms (v : Z) (t : string) :
  0 <= v <= 255 -> In t (text_forms v) ->
  parse_u8 (PyStr t) = Ok v
  /\ parse_u8 (PyBytes (list_byte_of_string t)) = Ok v
  /\ parse_u8 (PyBytes [to_byte v]) = Ok v.
Proof.
  intros Hv Hin.
  pose proof (all_from_spec
                (fun v =>
                   forallb
                     (fun t =>
                        returns (parse_u8 (PyStr t)) v
                        && returns (parse_u8 (PyBytes (list_byte_of_string t)))
                             v)
                     (text_forms v)) 256 0
                ltac:(vm_compute; reflexivity) v ltac:(lia)) as G.
  cbv beta in G. rewrite forallb_forall in G. specialize (G t Hin).
  apply andb_prop in G as [G1 G2]. unfold returns in G1, G2.
  destruct (parse_u8 (PyStr t)) as [v1|]; [|discriminate].
  destruct (parse_u8 (PyBytes (list_byte_of_string t))) as [v2|];
    [|discriminate].
  apply Z.eqb_eq in G1, G2. subst v1 v2.
  repeat split. cbn [parse_u8]. rewrite Z_of_to_byte_u8 by assumption.
  reflexivity.
Qed.

Lemma parse_u8_docstring_forms_witness :
  parse_u8 (PyStr "0X1f") = Ok 31
  /\ parse_u8 (PyBytes (list_byte_of_string "0X1f")) = Ok 31
  /\ parse_u8 (PyBytes [to_byte 31]) = Ok 31.
Proof.
  apply (parse_u8_docstring_forms 31 "0X1f"); [lia|].
  vm_compute. tauto.
Defined.

(** ** Which exception *)

Lemma bind_raise {E A B : Type} (m : result E A) (k : A -> result E B) (e : E) :
  bind m k = Raise e -> m = Raise e \/ exists a, m = Ok a /\ k a = Raise e.
Proof.
  destruct m as [a|e']; cbn [bind]; intros H.
  - right. exists a. auto.
  - left. injection H as ->. reflexivity.
Qed.

Lemma py_bytes_raises (l : list Z) (e : exn) :
  py_bytes l = Raise e -> is_type_error e = false.
Proof.
  induction l as [|z l IH]; cbn [py_bytes]; [discriminate|].
  destruct (is_u8 z).
  - intros H. apply bind_raise in H as [H|(bs & _ & H)];
      [exact (IH H) | discriminate].
  - intros H. injection H as <-. reflexivity.
Qed.

Lemma py_int_raises (base : Z) (s : string) (e : exn) :
  py_int base s = Raise e -> is_type_error e = false.
Proof.
  unfold py_int. destruct (take_sign (skip_spaces s)) as [negative s1].
  destruct (starts_with_underscore _);
    [intros H; injection H as <-; reflexivity|].
  destruct (scan_digits _ _ _ _) as [[v rest]|];
    [|intros H; injection H as <-; reflexivity].
  destruct (negb _ && _); [intros H; injection H as <-; reflexivity|].
  destruct (_ =? _)%nat; [intros H; injection H as <-; reflexivity|].
  destruct (is_empty _); [discriminate|].
  intros H. injection H as <-. reflexivity.
Qed.

Lemma decode_raises (b : bytes) (e : exn) :
  decode b = Raise e -> is_type_error e = false.
Proof.
  remember (List.length b) as n eqn:Hn. revert b Hn.
  induction n as [n IH] using lt_wf_ind. intros b Hn.
  destruct b as [|b0 rest]; cbn [decode]; [discriminate|].
  destruct (Z_of_byte b0 <? 128).
  - intros H. apply bind_raise in H as [H|(s & _ & H)]; [|discriminate].
    apply (IH (List.length rest)) with (b := rest);
      [subst n; cbn [List.length]; lia | reflexivity | exact H].
  - destruct rest as [|b1 rest'];
      [intros H; injection H as <-; reflexivity|].
    destruct (_ && _); [|intros H; injection H as <-; reflexivity].
    intros H. apply bind_raise in H as [H|(s & _ & H)]; [|discriminate].
    apply (IH (List.length rest')) with (b := rest');
      [subst n; cbn [List.length]; lia | reflexivity | exact H].
Qed.

Lemma range_u8_raises (v : Z) (e : exn) :
  range_u8 v = Raise e -> is_type_error e = false.
Proof.
  unfold range_u8. destruct (negb (is_u8 v)); [|discriminate].
  intros H. injection H as <-. reflexivity.
Qed.

Lemma parse_u8_str_raises (x : string) (e : exn) :
  parse_u8_str x = Raise e -> is_type_error e = false.
Proof.
  unfold parse_u8_str. intros H.
  apply bind_raise in H as [H|(v & _ & H)]; [|eapply range_u8_raises, H].
  destruct (startswith _ _); [eapply py_int_raises, H|].
  destruct (all_hex _); eapply py_int_raises, H.
Qed.

Lemma parse_u8_raises (x : pyval) (e : exn) :
  parse_u8 x = Raise e -> is_type_error e = negb (supported_u8 x).
Proof.
  destruct x as [z|b|b|s| |]; cbn [parse_u8 supported_u8 negb];
    try (intros H; injection H as <-; reflexivity).
  - apply range_u8_raises.
  - destruct b as [|b0 [|b1 rest]]; try discriminate;
      intros H; apply bind_raise in H as [H|(s & _ & H)];
      (eapply decode_raises, H) || (eapply parse_u8_str_raises, H).
  - apply parse_u8_str_raises.
Qed.

Lemma data_of_int_raises (v : Z) (e : exn) :
  data_of_int v = Raise e -> is_type_error e = false.
Proof.
  unfold data_of_int. destruct (v =? 0); [apply py_bytes_raises|].
  destruct (negb (is_u8 v)); [|apply py_bytes_raises].
  intros H. injection H as <-. reflexivity.
Qed.

Lemma data_to_2_bytes_raises (data : pyval) (e : exn) :
  data_to_2_bytes data = Raise e ->
  is_type_error e = match data with PyOther => true | _ => false end.
Proof.
  destruct data as [z|b|b|s| |]; cbn [data_to_2_bytes];
    try discriminate.
  - apply data_of_int_raises.
  - change (data_of_bytes b) with (data_to_2_bytes (PyBytes b)).
    rewrite data_to_2_bytes_bytes. discriminate.
  - change (data_of_bytes b) with (data_to_2_bytes (PyBytes b)).
    rewrite data_to_2_bytes_bytes. discriminate.
  - unfold data_of_str. destruct (is_empty _); [discriminate|].
    intros H. apply bind_raise in H as [H|(v & _ & H)];
      [|eapply data_of_int_raises, H].
    destruct (startswith _ _); eapply py_int_raises, H.
  - intros H. injection H as <-. reflexivity.
Qed.

(** X17: [build_frame] raises [TypeError] only for an argument of a wrong
    shape: when addr and cmd are each an [int], [bytes] or [str] and data
    is [None], [bytes], [bytearray], [str] or [int], every exception it
    raises is a [ValueError]; and an addr of another shape always gives
    [TypeError], whatever cmd and data are. *)
Theorem build_frame_type_error (stx_arg : Z) (addr cmd data : pyval) :
  (supported_u8 addr = true -> supported_u8 cmd = true -> data <> PyOther ->
   forall e, build_frame (new_sender stx_arg) addr cmd data = Raise e ->
             exists why, e = ValueError why)
  /\ (supported_u8 addr = false ->
      build_frame (new_sender stx_arg) addr cmd data
      = Raise (TypeError UnsupportedU8)).
Proof.
  rewrite build_frame_eq. split.
  - intros Ha Hc Hd e H.
    assert (G : is_type_error e = false).
    { apply bind_raise in H as [H|(a & _ & H)].
      { apply parse_u8_raises in H. rewrite Ha in H. exact H. }
      apply bind_raise in H as [H|(c & _ & H)].
      { apply parse_u8_raises in H. rewrite Hc in H. exact H. }
      apply bind_raise in H as [H|(p & _ & H)].
      { apply data_to_2_bytes_raises in H.
        destruct data; try exact H. congruence. }
      destruct (_ <=? _)%nat; [discriminate|]. injection H as <-.
      reflexivity. }
    destruct e as [why|why]; [exists why; reflexivity | discriminate].
  - intros Ha. destruct addr; try discriminate; reflexivity.
Qed.

Lemma build_frame_type_error_witness :
  (exists why, ValueError OutOfRangeData = ValueError why)
  /\ build_frame (new_sender 0xA5) (PyByteArray [x01]) (PyInt 2) PyNone
     = Raise (TypeError UnsupportedU8).
Proof.
  split.
  - apply (proj1 (build_frame_type_error 0xA5 (PyInt 1) (PyStr "2")
                    (PyInt 300)));
      try reflexivity; discriminate.
  - apply (proj2 (build_frame_type_error 0xA5 (PyByteArray [x01]) (PyInt 2)
                    PyNone)).
    reflexivity.
Defined.

(** ** Empty payloads and the STX in the checksum *)

(** X18: every way of giving no data builds the same frame: [None], the
    empty [bytes] and [bytearray], the empty string and blank text all
    coerce to the empty payload, so [build_frame] returns for each what it
    returns for [None]. *)
Theorem build_frame_no_data
    (self : CommandSender) (addr cmd : pyval) (s : string) :
  all_chars isspace s = true ->
  data_to_2_bytes (PyStr s) = Ok []
  /\ build_frame self addr cmd (PyStr s) = build_frame self addr cmd PyNone
  /\ build_frame self addr cmd (PyBytes []) = build_frame self addr cmd PyNone
  /\ build_frame self addr cmd (PyByteArray [])
     = build_frame self addr cmd PyNone.
Proof.
  intros H.
  assert (E : data_to_2_bytes (PyStr s) = Ok []).
  { cbn [data_to_2_bytes]. unfold data_of_str. rewrite (strip_blank s H).
    reflexivity. }
  split; [exact E|]. unfold build_frame. rewrite E.
  repeat split; reflexivity.
Qed.

Lemma build_frame_no_data_witness :
  data_to_2_bytes (PyStr "  ") = Ok []
  /\ build_frame default_sender (PyInt 1) (PyInt 2) (PyStr "  ")
     = build_frame default_sender (PyInt 1) (PyInt 2) PyNone
  /\ build_frame default_sender (PyInt 1) (PyInt 2) (PyBytes [])
     = build_frame default_sender (PyInt 1) (PyInt 2) PyNone
  /\ build_frame default_sender (PyInt 1) (PyInt 2) (PyByteArray [])
     = build_frame default_sender (PyInt 1) (PyInt 2) PyNone.
Proof.
  apply (build_frame_no_data default_sender (PyInt 1) (PyInt 2) "  ").
  reflexivity.
Defined.

Lemma u16_low_high (x y : Z) :
  u16 x -> u16 y ->
  to_byte (x mod 256) = to_byte (y mod 256) ->
  to_byte (x / 256) = to_byte (y / 256) -> x = y.
Proof.
  unfold u16. intros Hx Hy El Eh.
  pose proof (Z.mod_pos_bound x 256 ltac:(lia)).
  pose proof (Z.mod_pos_bound y 256 ltac:(lia)).
  assert (0 <= x / 256 < 256)
    by (split; [apply Z.div_pos; lia | apply Z.div_lt_upper_bound; lia]).
  assert (0 <= y / 256 < 256)
    by (split; [apply Z.div_pos; lia | apply Z.div_lt_upper_bound; lia]).
  apply to_byte_inj in El, Eh; try lia.
  rewrite (Z.div_mod x 256), (Z.div_mod y 256) by lia. lia.
Qed.

Lemma frame_of_after_stx (s a c : Z) (p : bytes) :
  skipn 1 (frame_of s a c p)
  = (to_byte (2 + Z.of_nat (List.length p)) :: to_byte a :: to_byte c :: p)
      ++ [to_byte (crc16_modbus (frame_head s a c p) mod 256);
          to_byte (crc16_modbus (frame_head s a c p) / 256)].
Proof. reflexivity. Qed.

(** X19: the STX is part of what the checksum protects: when two senders
    whose STX bytes differ build frames from the same inputs, the frames
    differ after the STX byte as well, namely in their checksum bytes. *)
Theorem build_frame_stx_changes_crc
    (stx1 stx2 : Z) (addr cmd data : pyval) (f1 f2 : bytes) :
  stx1 mod 256 <> stx2 mod 256 ->
  build_frame (new_sender stx1) addr cmd data = Ok f1 ->
  build_frame (new_sender stx2) addr cmd data = Ok f2 ->
  skipn 1 f1 <> skipn 1 f2
  /\ firstn (List.length f1 - 3) (skipn 1 f1)
     = firstn (List.length f2 - 3) (skipn 1 f2).
Proof.
  intros Hne H1 H2.
  apply build_frame_ok_inv in H1 as (a & c & p & Ha & Hc & Hp & _ & _ & _ & ->).
  apply build_frame_ok_inv in H2
    as (a' & c' & p' & Ha' & Hc' & Hp' & _ & _ & _ & ->).
  rewrite Ha in Ha'. rewrite Hc in Hc'. rewrite Hp in Hp'.
  injection Ha' as <-. injection Hc' as <-. injection Hp' as <-.
  pose proof (Z.mod_pos_bound stx1 256 ltac:(lia)) as B1.
  pose proof (Z.mod_pos_bound stx2 256 ltac:(lia)) as B2.
  assert (Hcrc : crc16_modbus (frame_head (stx1 mod 256) a c p)
                 <> crc16_modbus (frame_head (stx2 mod 256) a c p)).
  { apply (crc16_modbus_byte_change [] _ (to_byte (stx1 mod 256))
             (to_byte (stx2 mod 256))).
    intros E. apply to_byte_inj in E; lia. }
  rewrite !frame_of_length, !frame_of_after_stx.
  set (body := to_byte (2 + Z.of_nat (List.length p))
                 :: to_byte a :: to_byte c :: p).
  split.
  - intros E. apply app_inv_head in E. injection E as El Eh.
    apply Hcrc.
    apply u16_low_high; try apply crc16_modbus_u16; assumption.
  - replace (6 + List.length p - 3)%nat with (List.length body + 0)%nat
      by (unfold body; cbn [List.length]; lia).
    rewrite !firstn_app_2. reflexivity.
Qed.

Lemma build_frame_stx_changes_crc_witness :
  skipn 1 [xa5; x02; x01; x02; x03; x79] <> skipn 1 [x5a; x02; x01; x02; x33; x6d]
  /\ firstn (List.length [xa5; x02; x01; x02; x03; x79] - 3)
       (skipn 1 [xa5; x02; x01; x02; x03; x79])
     = firstn (List.length [x5a; x02; x01; x02; x33; x6d] - 3)
         (skipn 1 [x5a; x02; x01; x02; x33; x6d]).
Proof.
  apply (build_frame_stx_changes_crc 0xA5 0x5A (PyInt 1) (PyInt 2) PyNone);
    [vm_compute; discriminate | vm_compute; reflexivity..].
Defined.
